(** * RcloneAPI: the path-safe remote file-management endpoints

    A shallow embedding of [files.py] (list, download, delete, mkdir, move)
    and of the upload endpoints of [main.py], with the properties the
    specification states about them; then the accounts, the startup and the
    token exchange of [main.py], the queries of [dashboard.py] on the upload
    table, and the routes of [api.py].

    Conventions of the embedding:
    - text is [string]; the output of a subprocess is modelled as the text
      it decodes to;
    - an endpoint is a computation in a state-and-exception monad over a
      [World]: the local file system, the upload table, and the log of the
      [rclone] command lines spawned so far;
    - what [rclone] answers is given by the environment ([Env]), as a
      function of how many subprocesses ran before and of the command line;
      a subprocess can always be spawned, and locally it does no more than
      write regular files;
    - the local file system has no symbolic links, and is a finite map from
      path strings to files and directories;
    - the text of an [HTTPException] is Starlette's, the status followed by
      the detail. *)

From Stdlib Require Import ZArith List Ascii String Bool Lia.
From stdpp Require Import base option strings gmap pretty.

Local Open Scope Z_scope.

(** ** Python string operations *)

Module Str.

(** [s.startswith(p)]. *)
Fixpoint startswith (p s : string) : bool :=
  match p, s with
  | EmptyString, _ => true
  | String _ _, EmptyString => false
  | String a p', String b s' => Ascii.eqb a b && startswith p' s'
  end.

(** [needle in hay]. *)
Fixpoint contains (needle hay : string) : bool :=
  match hay with
  | EmptyString => startswith needle EmptyString
  | String _ rest => startswith needle hay || contains needle rest
  end.

(** [s.split(sep)] for a one-character separator. *)
Fixpoint split (sep : ascii) (s : string) : list string :=
  match s with
  | EmptyString => [EmptyString]
  | String c rest =>
      if Ascii.eqb c sep then EmptyString :: split sep rest
      else match split sep rest with
           | h :: t => String c h :: t
           | [] => [String c EmptyString]
           end
  end.

(** [sep.join(parts)]. *)
Fixpoint join (sep : string) (parts : list string) : string :=
  match parts with
  | [] => EmptyString
  | [p] => p
  | p :: rest => p +:+ sep +:+ join sep rest
  end.

(** [s.replace(old, new)] for a non-empty [old]: one pass from the left,
    occurrences that do not overlap; [skip] counts the characters of a match
    still to be dropped. *)
Fixpoint replace_from (old new : string) (skip : nat) (s : string) : string :=
  match s with
  | EmptyString => EmptyString
  | String c rest =>
      match skip with
      | S k => replace_from old new k rest
      | O =>
          if startswith old s
          then new +:+ replace_from old new (Nat.pred (String.length old)) rest
          else String c (replace_from old new O rest)
      end
  end.

Definition replace (old new s : string) : string := replace_from old new O s.

(** The characters [bytes.strip()] removes: space, tab, newline, carriage
    return, vertical tab and form feed. *)
Definition is_space (c : ascii) : bool :=
  let n := nat_of_ascii c in
  (Nat.eqb n 32 || (Nat.leb 9 n && Nat.leb n 13))%bool.

Fixpoint lstrip (s : string) : string :=
  match s with
  | EmptyString => EmptyString
  | String c rest => if is_space c then lstrip rest else s
  end.

Fixpoint rstrip (s : string) : string :=
  match s with
  | EmptyString => EmptyString
  | String c rest =>
      match rstrip rest with
      | EmptyString => if is_space c then EmptyString else String c EmptyString
      | r => String c r
      end
  end.

Definition strip (s : string) : string := rstrip (lstrip s).

(** Truth value of a string: non-empty. *)
Definition truthy (s : string) : bool :=
  match s with EmptyString => false | _ => true end.

End Str.

(** ** pathlib and os.path on POSIX

    A pure path is its root (empty, ["/"] or ["//"]) and its parts. *)

Record PurePath := mkPath { root : string; parts : list string }.

Definition nonblank_part (x : string) : bool :=
  negb (String.eqb x EmptyString) && negb (String.eqb x ".").

(** [posixpath.splitroot]: exactly two leading slashes are a root of their own. *)
Definition splitroot (p : string) : string * string :=
  match p with
  | String "/" (String "/" (String "/" r)) => ("/", String "/" (String "/" r))
  | String "/" (String "/" r) => ("//", r)
  | String "/" r => ("/", r)
  | _ => (EmptyString, p)
  end.

(** [Path(s)]: empty and ["."] components are dropped, [".."] is kept. *)
Definition Path (s : string) : PurePath :=
  let '(rt, rel) := splitroot s in
  mkPath rt (filter (fun x => nonblank_part x = true) (Str.split "/" rel)).

(** [str(p)]. *)
Definition path_str (p : PurePath) : string :=
  match root p, parts p with
  | EmptyString, [] => "."
  | rt, ps => rt +:+ Str.join "/" ps
  end.

(** [p.name]: the last part, or the empty string. *)
Definition path_name (p : PurePath) : string := List.last (parts p) EmptyString.

(** [p.parent]. *)
Definition path_parent (p : PurePath) : PurePath :=
  mkPath (root p) (List.removelast (parts p)).

(** [p / s]: an absolute right operand replaces the left one. *)
Definition path_div (p : PurePath) (s : string) : PurePath :=
  let q := Path s in
  match root q with
  | EmptyString => mkPath (root p) (parts p ++ parts q)
  | _ => q
  end.

(** [os.path.join(a, b)]. *)
Definition os_path_join (a b : string) : string :=
  if Str.startswith "/" b then b
  else if String.eqb a EmptyString then b
  else if String.eqb (String.substring (String.length a - 1) 1 a) "/" then a +:+ b
  else a +:+ "/" +:+ b.

(** ** Exceptions, the world and the endpoint monad *)

(** Python exceptions: FastAPI's [HTTPException], and any other exception
    with the text [str(e)] gives for it. *)
Inductive exn :=
| HTTPException (status_code : Z) (detail : string)
| PyError (kind : string) (message : string).

(** [str(e)]; Starlette's [HTTPException.__str__] gives ["<status>: <detail>"]. *)
Definition exn_str (e : exn) : string :=
  match e with
  | HTTPException s d => pretty s +:+ ": " +:+ d
  | PyError _ m => m
  end.

(** An [OSError] of the operating system about the file [p]. *)
Definition os_error (kind what p : string) : exn :=
  PyError kind (what +:+ ": '" +:+ p +:+ "'").

(** An entry of the local file system. *)
Inductive node := File (content : string) | Dir.

(** A finished subprocess: [process.returncode] and what [communicate()]
    returned, together with the regular files the tool wrote locally
    (rclone writes local files only when it copies down). *)
Record Proc := mkProc {
  returncode : Z;
  stdout : string;
  stderr : string;
  deposits : list (string * string)
}.

(** One entry of rclone's [lsjson] output, as [json.loads] returns it; the
    entries are taken to carry the five fields the endpoint reads, with the
    types rclone gives them. *)
Record LsEntry := mkLsEntry {
  entry_Path : string;
  entry_Name : string;
  entry_IsDir : bool;
  entry_Size : Z;
  entry_ModTime : string
}.

(** [models.User] (the authenticated user) and [models.FileUpload]. *)
Record User := mkUser { user_id : Z; username : string }.

Record FileUpload := mkFileUpload {
  fu_filename : string;
  fu_size : Z;
  fu_mime_type : string;
  fu_upload_path : string;
  fu_status : string;
  fu_uploaded_by : Z
}.

(** FastAPI's [UploadFile]. *)
Record UploadFile := mkUploadFile {
  uf_filename : string;
  uf_size : Z;
  uf_content_type : string;
  uf_body : string
}.

(** What the process does not decide: the working directory (its resolved
    parts), the outcome of the [n]-th spawned subprocess given its command
    line, and [json.loads] (on the left the text of the exception it raises). *)
Record Env := mkEnv {
  cwd : list string;
  rclone : nat -> list string -> Proc;
  json_loads : string -> string + list LsEntry
}.

(** The state an endpoint reads and writes. The local file system is a flat
    finite map from path strings to entries: path strings are not identified
    up to normalisation, and creating a file does not ask for its parent.
    [calls] logs the command lines spawned, [writes] the paths opened for
    writing; [table] is the committed upload table and [pending] the
    session's uncommitted additions; [uploaded_files] is the list of that
    name the batch upload fills while it stages and reads back in its
    cleanup, also after an exception. *)
Record World := mkWorld {
  fs : gmap string node;
  table : list FileUpload;
  pending : list FileUpload;
  calls : list (list string);
  writes : list string;
  uploaded_files : list string
}.

Definition set_fs (f : gmap string node -> gmap string node) (w : World) : World :=
  mkWorld (f (fs w)) (table w) (pending w) (calls w) (writes w) (uploaded_files w).

Definition M (A : Type) : Type := World -> (exn + A) * World.

Definition ret {A} (a : A) : M A := fun w => (inr a, w).

Definition raise {A} (e : exn) : M A := fun w => (inl e, w).

Definition bind {A B} (m : M A) (k : A -> M B) : M B :=
  fun w => match m w with
           | (inl e, w') => (inl e, w')
           | (inr a, w') => k a w'
           end.

Declare Scope py_scope.
Delimit Scope py_scope with py.
Notation "x <- m ;; k" := (bind m (fun x => k))
  (at level 100, m at next level, right associativity) : py_scope.
Notation "m ;;; k" := (bind m (fun _ => k))
  (at level 100, right associativity) : py_scope.
Local Open Scope py_scope.

(** [try: body finally: cleanup]: the cleanup runs whatever the body did; an
    exception of the cleanup replaces the body's outcome. *)
Definition try_finally {A} (body : M A) (cleanup : M unit) : M A :=
  fun w => let '(r, w1) := body w in
           match cleanup w1 with
           | (inl e, w2) => (inl e, w2)
           | (inr _, w2) => (r, w2)
           end.

(** [try: body except Exception as e: raise HTTPException(500, str(e))].
    [HTTPException] is itself an [Exception], so it is caught too. *)
Definition except_Exception {A} (body : M A) : M A :=
  fun w => match body w with
           | (inl e, w') => (inl (HTTPException 500 (exn_str e)), w')
           | ok => ok
           end.

(** [for x in xs: body x]. *)
Fixpoint for_each {A} (xs : list A) (body : A -> M unit) : M unit :=
  match xs with
  | [] => ret tt
  | x :: rest => body x ;;; for_each rest body
  end.

(** *** The local file system *)

Definition deposit (f : gmap string node) (kc : string * string) : gmap string node :=
  match f !! kc.1 with
  | Some Dir => f
  | _ => <[kc.1 := File kc.2]> f
  end.

(** [asyncio.create_subprocess_exec] on the command line, followed by
    [communicate()]. *)
Definition spawn (env : Env) (argv : list string) : M Proc :=
  fun w =>
    let p := rclone env (List.length (calls w)) argv in
    (inr p, mkWorld (fold_left deposit (deposits p) (fs w)) (table w) (pending w)
                    (calls w ++ [argv]) (writes w) (uploaded_files w)).

(** [p.exists()] and [os.path.exists(p)]. *)
Definition path_exists (p : string) : M bool :=
  fun w => (inr (bool_decide (is_Some (fs w !! p))), w).

(** [open(p, mode)] for writing, the body copied in, the file closed. *)
Definition write_file (p body : string) : M unit :=
  fun w => match fs w !! p with
           | Some Dir => (inl (os_error "IsADirectoryError" "[Errno 21] Is a directory" p), w)
           | _ => (inr tt, mkWorld (<[p := File body]> (fs w)) (table w) (pending w)
                                   (calls w) (writes w ++ [p]) (uploaded_files w))
           end.

(** [p.unlink()] and [os.remove(p)]. *)
Definition unlink (p : string) : M unit :=
  fun w => match fs w !! p with
           | Some (File _) => (inr tt, set_fs (delete p) w)
           | Some Dir => (inl (os_error "IsADirectoryError" "[Errno 21] Is a directory" p), w)
           | None => (inl (os_error "FileNotFoundError" "[Errno 2] No such file or directory" p), w)
           end.

(** One [os.mkdir] that accepts an existing directory. *)
Definition mkdir_one (p : string) : M unit :=
  fun w => match fs w !! p with
           | Some Dir => (inr tt, w)
           | Some (File _) => (inl (os_error "FileExistsError" "[Errno 17] File exists" p), w)
           | None => (inr tt, set_fs (insert p Dir) w)
           end.

(** The path and its ancestors, outermost first. *)
Definition ancestors_and_self (p : PurePath) : list string :=
  map (fun n => path_str (mkPath (root p) (firstn n (parts p))))
      (seq 1 (List.length (parts p))).

(** [p.mkdir(exist_ok=True)] and [p.mkdir(parents=True, exist_ok=True)]. *)
Definition mkdir (p : PurePath) : M unit := mkdir_one (path_str p).
Definition mkdir_parents (p : PurePath) : M unit :=
  for_each (ancestors_and_self p) mkdir_one.

(** Whether [k] lies below the directory [d]. *)
Definition below (d k : string) : bool := Str.startswith (d +:+ "/") k.

(** [any(d.iterdir())]. *)
Definition any_iterdir (d : string) : M bool :=
  fun w => match fs w !! d with
           | Some Dir => (inr (existsb (fun kv => below d kv.1) (map_to_list (fs w))), w)
           | Some (File _) =>
               (inl (os_error "NotADirectoryError" "[Errno 20] Not a directory" d), w)
           | None => (inl (os_error "FileNotFoundError" "[Errno 2] No such file or directory" d), w)
           end.

(** [d.rmdir()], called on a directory found empty. *)
Definition rmdir (d : string) : M unit :=
  fun w => match fs w !! d with
           | Some Dir => (inr tt, set_fs (delete d) w)
           | Some (File _) =>
               (inl (os_error "NotADirectoryError" "[Errno 20] Not a directory" d), w)
           | None => (inl (os_error "FileNotFoundError" "[Errno 2] No such file or directory" d), w)
           end.

(** [shutil.rmtree(d)]: the directory and everything below it. *)
Definition rmtree (d : string) : M unit :=
  fun w => match fs w !! d with
           | Some Dir =>
               (inr tt,
                set_fs (fun f => filter (fun kv => below d kv.1 = false) (delete d f)) w)
           | Some (File _) =>
               (inl (os_error "NotADirectoryError" "[Errno 20] Not a directory" d), w)
           | None => (inl (os_error "FileNotFoundError" "[Errno 2] No such file or directory" d), w)
           end.

(** *** The upload table *)

(** [db.add(row)] and [db.commit()]. *)
Definition db_add (row : FileUpload) : M unit :=
  fun w => (inr tt, mkWorld (fs w) (table w) (pending w ++ [row]) (calls w) (writes w)
                            (uploaded_files w)).

Definition db_commit : M unit :=
  fun w => (inr tt, mkWorld (fs w) (table w ++ pending w) [] (calls w) (writes w)
                            (uploaded_files w)).

(** Modelled from the spec: [database.get_db] is not among the sources. The
    record store is written under the framework's transaction-per-request
    discipline: the endpoint gets a session of its own, and what the session
    has not committed when the request ends is dropped. *)
Definition get_db {A} (endpoint : M A) : M A :=
  fun w =>
    let '(r, w') :=
      endpoint (mkWorld (fs w) (table w) [] (calls w) (writes w) (uploaded_files w)) in
    (r, mkWorld (fs w') (table w') [] (calls w') (writes w') (uploaded_files w')).

(** The batch upload's local list. *)
Definition set_uploaded_files (l : list string) : M unit :=
  fun w => (inr tt, mkWorld (fs w) (table w) (pending w) (calls w) (writes w) l).

Definition append_uploaded_file (p : string) : M unit :=
  fun w => (inr tt, mkWorld (fs w) (table w) (pending w) (calls w) (writes w)
                            (uploaded_files w ++ [p])).

Definition get_uploaded_files : M (list string) :=
  fun w => (inr (uploaded_files w), w).

(** *** Path.resolve *)

Definition has_nul (s : string) : bool := Str.contains (String "000" EmptyString) s.

Definition realpath_step (stack : list string) (name : string) : list string :=
  if String.eqb name ".." then removelast stack else stack ++ [name].

(** [p.resolve()] on a file system without symbolic links: the path is made
    absolute from the working directory and every [".."] part removes the
    part before it (none at the root). A NUL character makes the lookup of
    the file raise. *)
Definition resolved (env : Env) (p : PurePath) : PurePath :=
  mkPath "/" (fold_left realpath_step (parts p)
                (match root p with EmptyString => cwd env | _ => [] end)).

Definition resolve (env : Env) (p : PurePath) : M PurePath :=
  if has_nul (path_str p) then raise (PyError "ValueError" "embedded null byte")
  else ret (resolved env p).

(** ** files.py *)

Definition RCLONE_REMOTE : string := "GCS:media_mover_test".
Definition LOCAL_UPLOAD_PATH : string := "uploads".

Record FileItem := mkFileItem {
  id : string;
  name : string;
  type : string;
  size : Z;
  modified : string;
  path : string
}.

(** What an endpoint returns. *)
Inductive Response :=
| FileItems (items : list FileItem)
| FileResponse (file_path filename media_type : string)
| JSONMessage (message : string)
| JSONUpload (filename status message : string)
| JSONUploadMany (filenames : list string) (folder status message : string).

(** The check each endpoint of [files.py] opens with, and the batch upload
    with its own detail text. *)
Definition check_path (env : Env) (path detail : string) : M unit :=
  clean_path <- resolve env (Path path) ;;
  if Str.contains ".." (path_str clean_path)
  then raise (HTTPException 400 detail)
  else ret tt.

Definition to_FileItem (path : string) (item : LsEntry) : FileItem :=
  mkFileItem
    (Str.replace "//" "/" (path +:+ "/" +:+ entry_Path item))
    (entry_Name item)
    (if entry_IsDir item then "folder" else "file")
    (entry_Size item)
    (entry_ModTime item)
    (Str.replace "//" "/" (path +:+ "/" +:+ entry_Path item)).

Definition list_argv (path : string) : list string :=
  ["rclone"; "lsjson"; Str.replace "//" "/" (RCLONE_REMOTE +:+ "/" +:+ path);
   "--gcs-bucket-policy-only"; "--no-traverse"].

Definition list_files (env : Env) (path : string) : M Response :=
  except_Exception (
    check_path env path "Invalid path" ;;;
    process <- spawn env (list_argv path) ;;
    if negb (returncode process =? 0)
    then raise (HTTPException 500 ("Failed to list files: " +:+ stderr process))
    else match json_loads env (stdout process) with
         | inl msg => raise (PyError "JSONDecodeError" msg)
         | inr items => ret (FileItems (map (to_FileItem path) items))
         end).

Definition download_temp_dir : PurePath := Path "temp_downloads".

Definition download_local_path (path : string) : PurePath :=
  path_div download_temp_dir (path_name (Path path)).

Definition download_argv (path : string) : list string :=
  ["rclone"; "copy"; RCLONE_REMOTE +:+ "/" +:+ path;
   path_str (path_parent (download_local_path path))].

(** The [try] block of the download and its [finally] block. *)
Definition download_try (env : Env) (path : string) (local_path : PurePath) : M Response :=
  process <- spawn env (download_argv path) ;;
  if negb (returncode process =? 0)
  then raise (HTTPException 500 ("Failed to download file: " +:+ stderr process))
  else ret (FileResponse (path_str local_path) (path_name (Path path))
                         "application/octet-stream").

Definition download_finally (local_path temp_dir : PurePath) : M unit :=
  there <- path_exists (path_str local_path) ;;
  (if there then unlink (path_str local_path) else ret tt) ;;;
  occupied <- any_iterdir (path_str temp_dir) ;;
  if occupied then ret tt else rmdir (path_str temp_dir).

Definition download_file (env : Env) (path : string) : M Response :=
  except_Exception (
    check_path env path "Invalid path" ;;;
    let temp_dir := download_temp_dir in
    mkdir temp_dir ;;;
    let local_path := download_local_path path in
    try_finally (download_try env path local_path)
                (download_finally local_path temp_dir)).

Definition delete_target (path : string) : string :=
  Str.replace "//" "/" (RCLONE_REMOTE +:+ "/" +:+ path).

Definition probe_argv (path : string) : list string :=
  ["rclone"; "lsf"; "--dirs-only"; delete_target path].

Definition delete_argv (command path : string) : list string :=
  ["rclone"; command; delete_target path; "--gcs-bucket-policy-only"; "--no-traverse"].

(** The deletion method read off the probe's standard output. *)
Definition delete_command (probe_stdout : string) : string :=
  if Str.truthy (Str.strip probe_stdout) then "purge" else "delete".

Definition delete_file (env : Env) (path : string) : M Response :=
  except_Exception (
    check_path env path "Invalid path" ;;;
    process_check <- spawn env (probe_argv path) ;;
    let command := delete_command (stdout process_check) in
    process_delete <- spawn env (delete_argv command path) ;;
    if negb (returncode process_delete =? 0)
    then raise (HTTPException 500
                  ("Failed to delete " +:+ command +:+ ": " +:+ stderr process_delete))
    else ret (JSONMessage
                ((if String.eqb command "purge" then "Folder" else "File")
                 +:+ " deleted successfully"))).

Definition mkdir_argv (path : string) : list string :=
  ["rclone"; "copyto"; "/tmp/.keep";
   Str.replace "//" "/" (RCLONE_REMOTE +:+ "/" +:+ path +:+ "/.keep");
   "--gcs-bucket-policy-only"; "--no-traverse"].

Definition create_directory (env : Env) (path : string) : M Response :=
  except_Exception (
    check_path env path "Invalid path" ;;;
    let temp_file := "/tmp/.keep" in
    write_file temp_file EmptyString ;;;
    process <- spawn env (mkdir_argv path) ;;
    if negb (returncode process =? 0)
    then raise (HTTPException 500 ("Failed to create directory: " +:+ stderr process))
    else ret (JSONMessage "Directory created successfully")).

Definition move_argv (source destination : string) : list string :=
  ["rclone"; "moveto"; RCLONE_REMOTE +:+ "/" +:+ source;
   RCLONE_REMOTE +:+ "/" +:+ destination].

Definition move_file (env : Env) (source destination : string) : M Response :=
  except_Exception (
    clean_source <- resolve env (Path source) ;;
    clean_dest <- resolve env (Path destination) ;;
    if Str.contains ".." (path_str clean_source) || Str.contains ".." (path_str clean_dest)
    then raise (HTTPException 400 "Invalid path")
    else
      process <- spawn env (move_argv source destination) ;;
      if negb (returncode process =? 0)
      then raise (HTTPException 500 ("Failed to move file: " +:+ stderr process))
      else ret (JSONMessage "File moved successfully")).

(** ** main.py *)

Definition upload_location (file : UploadFile) : string :=
  os_path_join LOCAL_UPLOAD_PATH (uf_filename file).

Definition upload_argv (file_location : string) : list string :=
  ["rclone"; "copy"; file_location; RCLONE_REMOTE; "--no-traverse";
   "--gcs-bucket-policy-only"].

(** The [try] block of the single upload and its [finally] block. *)
Definition upload_try (env : Env) (file_location : string) : M unit :=
  process <- spawn env (upload_argv file_location) ;;
  if negb (returncode process =? 0)
  then raise (HTTPException 500
                ("Failed to upload to cloud storage: " +:+ stderr process))
  else ret tt.

Definition upload_finally (file_location : string) : M unit :=
  there <- path_exists file_location ;;
  if there then unlink file_location else ret tt.

Definition upload_file (env : Env) (file : UploadFile) : M Response :=
  except_Exception (
    let file_location := upload_location file in
    write_file file_location (uf_body file) ;;;
    try_finally (upload_try env file_location) (upload_finally file_location) ;;;
    ret (JSONUpload (uf_filename file) "success" "File uploaded successfully")).

Definition batch_temp_dir : PurePath := path_div (Path LOCAL_UPLOAD_PATH) "temp".

Definition batch_location (file : UploadFile) : string :=
  path_str (path_div batch_temp_dir (uf_filename file)).

Definition batch_argv (folder : string) : list string :=
  ["rclone"; "copy"; path_str batch_temp_dir; RCLONE_REMOTE +:+ "/" +:+ folder;
   "--gcs-bucket-policy-only"; "--no-traverse"].

Definition batch_record (folder : string) (current_user : User) (file : UploadFile)
  : FileUpload :=
  mkFileUpload (uf_filename file) (uf_size file) (uf_content_type file)
    (Str.replace "//" "/" (folder +:+ "/" +:+ uf_filename file))
    "success" (user_id current_user).

(** The batch upload's [try] block: the staging loop, the two copies, the
    rows; and its [finally] block. *)
Definition batch_stage (files : list UploadFile) : M unit :=
  for_each files (fun file =>
    let file_location := batch_location file in
    write_file file_location (uf_body file) ;;;
    append_uploaded_file file_location).

Definition batch_copy (env : Env) (files : list UploadFile) (folder : string)
    (current_user : User) : M unit :=
  spawn env (batch_argv folder) ;;;
  process <- spawn env (batch_argv folder) ;;
  if negb (returncode process =? 0)
  then raise (HTTPException 500
                ("Failed to upload to cloud storage: " +:+ stderr process))
  else
    for_each files (fun file => db_add (batch_record folder current_user file)) ;;;
    db_commit.

Definition batch_try (env : Env) (files : list UploadFile) (folder : string)
    (current_user : User) : M unit :=
  batch_stage files ;;; batch_copy env files folder current_user.

Definition unlink_if_exists (file_path : string) : M unit :=
  there <- path_exists file_path ;;
  if there then unlink file_path else ret tt.

Definition batch_finally (temp_dir : PurePath) : M unit :=
  staged <- get_uploaded_files ;;
  for_each staged unlink_if_exists ;;;
  there <- path_exists (path_str temp_dir) ;;
  if there then rmtree (path_str temp_dir) else ret tt.

Definition upload_multiple_files (env : Env) (files : list UploadFile) (folder : string)
    (current_user : User) : M Response :=
  get_db (except_Exception (
    check_path env folder "Invalid folder path" ;;;
    set_uploaded_files [] ;;;
    let temp_dir := batch_temp_dir in
    mkdir_parents temp_dir ;;;
    try_finally (batch_try env files folder current_user) (batch_finally temp_dir) ;;;
    ret (JSONUploadMany (map uf_filename files) folder "success"
           ("Files uploaded successfully to " +:+ folder)))).

(** ** The endpoints as one request handler *)

Inductive Request :=
| GetFiles (path : string)
| GetDownload (path : string)
| DeleteFiles (path : string)
| PostMkdir (path : string)
| PostMove (source destination : string)
| PostUpload (file : UploadFile)
| PostUploadMultiple (files : list UploadFile) (folder : string) (current_user : User).

Definition handle (env : Env) (req : Request) : M Response :=
  match req with
  | GetFiles p => list_files env p
  | GetDownload p => download_file env p
  | DeleteFiles p => delete_file env p
  | PostMkdir p => create_directory env p
  | PostMove s d => move_file env s d
  | PostUpload f => upload_file env f
  | PostUploadMultiple fs folder u => upload_multiple_files env fs folder u
  end.

(** What the client receives. *)
Inductive Body :=
| JSONBody (r : Response)
| DetailBody (detail : string)
| FileBody (content : string)
| InternalServerError.

Record HttpResponse := mkHttp { status : Z; body : Body }.

(** The framework's part: an [HTTPException] becomes a response with its
    status and detail; a [FileResponse] is sent by reading the file when the
    response goes out, after the endpoint has returned, and fails if the
    file is not there. *)
Definition send (outcome : (exn + Response) * World) : HttpResponse :=
  match outcome with
  | (inl (HTTPException s d), _) => mkHttp s (DetailBody d)
  | (inl (PyError _ _), _) => mkHttp 500 InternalServerError
  | (inr (FileResponse p _ _), w) =>
      match fs w !! p with
      | Some (File content) => mkHttp 200 (FileBody content)
      | _ => mkHttp 500 InternalServerError
      end
  | (inr r, _) => mkHttp 200 (JSONBody r)
  end.

Definition serve (env : Env) (req : Request) (w : World) : HttpResponse :=
  send (handle env req w).

(** A status of the 4xx class, of the 5xx class. *)
Definition client_error (s : Z) : bool := (400 <=? s) && (s <? 500).

(** ** Notions the properties are stated with *)

Definition empty_world : World := mkWorld ∅ [] [] [] [] [].

(** The outcome of an endpoint's opening check on a path; the check neither
    reads nor changes the world. *)
Definition path_accepted (env : Env) (path : string) : bool :=
  match check_path env path EmptyString empty_world with
  | (inr _, _) => true
  | _ => false
  end.

Definition path_rejected (env : Env) (path : string) : bool :=
  match check_path env path EmptyString empty_world with
  | (inl (HTTPException 400 _), _) => true
  | _ => false
  end.

(** A supplied path with a parent-directory segment. *)
Definition has_traversal_segment (path : string) : bool :=
  existsb (String.eqb "..") (Str.split "/" path).

(** The paths a request hands to the opening check. *)
Definition request_paths (req : Request) : list string :=
  match req with
  | GetFiles p | GetDownload p | DeleteFiles p | PostMkdir p => [p]
  | PostMove s d => [s; d]
  | PostUpload _ => []
  | PostUploadMultiple _ folder _ => [folder]
  end.

(** Every run of separators reduced to one separator: what "all duplicate
    separators collapsed" asks for. *)
Fixpoint squeeze (s : string) : string :=
  match s with
  | EmptyString => EmptyString
  | String c rest =>
      match rest with
      | String d _ =>
          if Ascii.eqb c "/" && Ascii.eqb d "/" then squeeze rest
          else String c (squeeze rest)
      | EmptyString => String c EmptyString
      end
  end.

(** The pass [replace("//", "/")] makes, written by recursion on the text. *)
Fixpoint halve (s : string) : string :=
  match s with
  | EmptyString => EmptyString
  | String c rest =>
      match rest with
      | String d rest' =>
          if Ascii.eqb c "/" && Ascii.eqb d "/" then String "/" (halve rest')
          else String c (halve rest)
      | EmptyString => String c EmptyString
      end
  end.

(** The command lines a run of an endpoint added to the log, and the paths
    it opened for writing. *)
Definition new_calls (w w' : World) : list (list string) :=
  skipn (List.length (calls w)) (calls w').

Definition new_writes (w w' : World) : list string :=
  skipn (List.length (writes w)) (writes w').

Definition starts_with_slash (s : string) : bool := Str.startswith "/" s.

(** ** Example environments and worlds *)


Definition quiet : Proc := mkProc 0 EmptyString EmptyString [].

(** Every subprocess succeeds and prints nothing. *)
Definition env_ok : Env :=
  mkEnv ["srv"; "app"] (fun _ _ => quiet) (fun _ => inr []).




(** Every subprocess fails. *)
Definition env_failing : Env :=
  mkEnv ["srv"; "app"] (fun _ _ => mkProc 1 EmptyString "quota exceeded" [])
    (fun _ => inr []).

(** The upload directory exists, as [main.py] ensures when it is loaded. *)
Definition world_started : World :=
  mkWorld (<["uploads" := Dir]> ∅) [] [] [] [] [].

(** The world a subprocess leaves behind. *)
Definition after_spawn (env : Env) (argv : list string) (w : World) : World :=
  (spawn env argv w).2.

Definition sample_entry : LsEntry :=
  mkLsEntry "b.txt" "b.txt" false 12 "2024-05-01T10:00:00Z".

(** The listing succeeds and holds one file. *)
Definition env_listing : Env :=
  mkEnv ["srv"; "app"] (fun _ _ => quiet) (fun _ => inr [sample_entry]).

Definition sample_user : User := mkUser 7 "alice".

Definition sample_file (filename : string) : UploadFile :=
  mkUploadFile filename 12 "text/plain" "test content".

(** The six endpoints that take a path, each asked for the same one. *)
Definition path_requests (p : string) : list Request :=
  [GetFiles p; GetDownload p; DeleteFiles p; PostMkdir p; PostMove p "archive";
   PostUploadMultiple [sample_file "a.txt"] p sample_user].

(** Whether some spawned command line names the text [p]. *)
Definition spawned_with (p : string) (argvs : list (list string)) : bool :=
  existsb (existsb (Str.contains p)) argvs.

(** The copy-down succeeds and leaves the file in the download directory. *)
Definition env_download : Env :=
  mkEnv ["srv"; "app"]
    (fun _ _ => mkProc 0 EmptyString EmptyString [("temp_downloads/report.txt", "figures")])
    (fun _ => inr []).

(** What kind of entry a lookup in the file system found. *)
Definition is_dir (o : option node) : bool :=
  match o with Some Dir => true | _ => false end.

Definition is_file (o : option node) : bool :=
  match o with Some (File _) => true | _ => false end.

(** The world a successful write leaves behind. *)
Definition after_write (p body : string) (w : World) : World :=
  mkWorld (<[p := File body]> (fs w)) (table w) (pending w) (calls w)
          (writes w ++ [p]) (uploaded_files w).

(** The staging directory of the batch upload, as a path string. *)
Definition batch_dir : string := path_str batch_temp_dir.

(** What holds of the world while the batch upload stages and copies: the
    staging directory is a directory, no staged path is one, and the paths
    written since the request began are the staged ones. *)
Definition staging_inv (before : list string) (w : World) : Prop :=
  is_dir (fs w !! batch_dir) = true
  /\ Forall (fun k => is_dir (fs w !! k) = false) (uploaded_files w)
  /\ writes w = before ++ uploaded_files w.

(** Two worlds that differ in the file system at most. *)
Definition same_records (w w' : World) : Prop :=
  table w' = table w /\ pending w' = pending w /\ calls w' = calls w
  /\ writes w' = writes w /\ uploaded_files w' = uploaded_files w.

(** Staging one file: one turn of the batch upload's first loop. *)
Definition stage_one (file : UploadFile) : M unit :=
  bind (write_file (batch_location file) (uf_body file))
       (fun _ => append_uploaded_file (batch_location file)).

Definition with_pending (rows : list FileUpload) (w : World) : World :=
  mkWorld (fs w) (table w) rows (calls w) (writes w) (uploaded_files w).

(** The world a request's session starts from, and the one it leaves. *)
Definition session_start (w : World) : World :=
  mkWorld (fs w) (table w) [] (calls w) (writes w) (uploaded_files w).





(** ** dashboard.py: the queries on the upload table *)

(** [get_failed_uploads]: the rows whose status is ["failed"]. *)
Definition get_failed_uploads (tbl : list FileUpload) : list FileUpload :=
  List.filter (fun row => String.eqb (fu_status row) "failed") tbl.

(** The two counts [get_dashboard_stats] takes: all rows, and the rows whose
    status is ["success"]. *)
Definition total_uploads (tbl : list FileUpload) : nat := List.length tbl.

Definition successful_uploads (tbl : list FileUpload) : nat :=
  List.length (List.filter (fun row => String.eqb (fu_status row) "success") tbl).

(** A computation that leaves the upload table as it found it. *)
Definition keeps_table {A} (m : M A) : Prop :=
  forall w, table (m w).2 = table w.

(** A world with a system file, and one in which another upload has staged
    a file. *)
Definition world_with_hosts : World :=
  mkWorld (<["/etc/hosts" := File "127.0.0.1 localhost"]> (<["uploads" := Dir]> ∅))
          [] [] [] [] [].

Definition world_with_staged : World :=
  mkWorld (<["uploads/temp/other.bin" := File "left by another upload"]>
             (<["uploads/temp" := Dir]> (<["uploads" := Dir]> ∅)))
          [] [] [] [] [].

(** ** main.py: accounts, the seed account and the token exchange *)

(** A row of the accounts table ([models.User] with its columns). *)
Record Account := mkAccount {
  acc_id : Z;
  acc_username : string;
  acc_email : string;
  acc_hashed_password : string;
  acc_is_admin : bool
}.

(** The dictionary [create_user_] is given. *)
Record NewUser := mkNewUser {
  nu_username : string;
  nu_email : string;
  nu_password : string;
  nu_is_admin : bool
}.

(** The functions and the constant of the module [auth], which is not among
    the sources: they are taken as parameters. *)
Record Auth := mkAuth {
  get_password_hash : string -> string;
  verify_password : string -> string -> bool;
  create_access_token : string -> Z -> string;
  ACCESS_TOKEN_EXPIRE_MINUTES : Z
}.

(** [db.query(models.User).filter(models.User.username == name).first()]. *)
Definition find_user (name : string) (users : list Account) : option Account :=
  List.find (fun a => String.eqb (acc_username a) name) users.

(** The identifier the table gives a new row. *)
Definition next_id (users : list Account) : Z :=
  1 + fold_right Z.max 0 (map acc_id users).

(** [create_user_]: the outcome and the accounts table it leaves. The
    columns [username] and [email] are declared unique in [models.py]; the
    name is looked up first, and a second row with a known email makes the
    commit fail. *)
Definition create_user_ (auth : Auth) (user : NewUser) (users : list Account)
  : (exn + Account) * list Account :=
  match find_user (nu_username user) users with
  | Some _ => (inl (HTTPException 400 "Username already registered"), users)
  | None =>
      let hashed_password := get_password_hash auth (nu_password user) in
      let db_user := mkAccount (next_id users) (nu_username user) (nu_email user)
                       hashed_password (nu_is_admin user) in
      if existsb (fun a => String.eqb (acc_email a) (nu_email user)) users
      then (inl (PyError "IntegrityError" "UNIQUE constraint failed: users.email"), users)
      else (inr db_user, users ++ [db_user])
  end.

(** What [POST /token] answers: the 401 with its challenge header, or the
    token. *)
Inductive LoginAnswer :=
| Unauthorized (status_code : Z) (detail : string) (headers : list (string * string))
| Token (access_token token_type : string).

Definition login (auth : Auth) (username password : string) (users : list Account)
  : LoginAnswer :=
  match find_user username users with
  | Some user =>
      if verify_password auth password (acc_hashed_password user)
      then Token (create_access_token auth (acc_username user)
                    (ACCESS_TOKEN_EXPIRE_MINUTES auth)) "bearer"
      else Unauthorized 401 "Incorrect username or password"
             [("WWW-Authenticate", "Bearer")]
  | None => Unauthorized 401 "Incorrect username or password"
              [("WWW-Authenticate", "Bearer")]
  end.

Definition seed_user : NewUser :=
  mkNewUser "bedri-b" "bahrubedri@gmail.com" "12345678q" true.

(** [startup_event]: the rclone check, then the seed account; each in a
    [try] of its own whose [except] prints a warning. The result is the
    world, the accounts table and the lines printed. *)
Definition startup_event (env : Env) (auth : Auth) (w : World) (users : list Account)
  : World * list Account * list string :=
  let '(checked, w1) := spawn env ["rclone"; "lsd"; RCLONE_REMOTE] w in
  let printed1 :=
    match checked with
    | inr process =>
        if negb (returncode process =? 0)
        then ["Warning: rclone configuration check failed: " +:+ stderr process]
        else []
    | inl e => ["Warning: Could not verify rclone configuration: " +:+ exn_str e]
    end in
  let '(created, users1) := create_user_ auth seed_user users in
  let printed2 :=
    match created with
    | inr _ => []
    | inl e => ["Warning: Could not create system user: " +:+ exn_str e]
    end in
  (w1, users1, printed1 ++ printed2).

(** An instance of the parameters, for the examples. *)
Definition sample_auth : Auth :=
  mkAuth (fun p => "hash:" +:+ p)
         (fun p h => String.eqb h ("hash:" +:+ p))
         (fun sub _ => "token-for-" +:+ sub)
         30.

(** ** api.py *)

Module Api.

(** The body of the answer: [{"success": True, "output": ...}] or
    [{"success": False, "error": ...}]. *)
Inductive Answer := Success (output : string) | Failure (error : string).

(** [run_rclone_command]: [subprocess.run] with [check=True], whose
    [CalledProcessError] is caught. *)
Definition run_rclone_command (env : Env) (command : list string) : M Answer :=
  result <- spawn env command ;;
  if returncode result =? 0 then ret (Success (stdout result))
  else ret (Failure (stderr result)).

Definition list_files (env : Env) : M Answer :=
  run_rclone_command env ["rclone"; "lsf"; RCLONE_REMOTE].

Definition upload_file (env : Env) (file : UploadFile) : M Answer :=
  let file_path := os_path_join LOCAL_UPLOAD_PATH (uf_filename file) in
  write_file file_path (uf_body file) ;;;
  run_rclone_command env ["rclone"; "copy"; file_path; RCLONE_REMOTE].

Definition download_file (env : Env) (file_name : string) : M Answer :=
  run_rclone_command env
    ["rclone"; "copy"; RCLONE_REMOTE +:+ "/" +:+ file_name; LOCAL_UPLOAD_PATH].

Definition delete_file (env : Env) (file_name : string) : M Answer :=
  run_rclone_command env ["rclone"; "delete"; RCLONE_REMOTE +:+ "/" +:+ file_name].

Definition sync_files (env : Env) (local_folder : string) : M Answer :=
  run_rclone_command env ["rclone"; "sync"; local_folder; RCLONE_REMOTE].

Definition get_rclone_config (env : Env) : M Answer :=
  run_rclone_command env ["rclone"; "config"; "show"].

(** The six routes as one handler. *)
Inductive Request :=
| GetList
| PostUpload (file : UploadFile)
| GetDownload (file_name : string)
| DeleteDelete (file_name : string)
| PostSync (local_folder : string)
| GetConfig.

Definition command (req : Request) : list string :=
  match req with
  | GetList => ["rclone"; "lsf"; RCLONE_REMOTE]
  | PostUpload file =>
      ["rclone"; "copy"; os_path_join LOCAL_UPLOAD_PATH (uf_filename file); RCLONE_REMOTE]
  | GetDownload file_name =>
      ["rclone"; "copy"; RCLONE_REMOTE +:+ "/" +:+ file_name; LOCAL_UPLOAD_PATH]
  | DeleteDelete file_name => ["rclone"; "delete"; RCLONE_REMOTE +:+ "/" +:+ file_name]
  | PostSync local_folder => ["rclone"; "sync"; local_folder; RCLONE_REMOTE]
  | GetConfig => ["rclone"; "config"; "show"]
  end.

Definition handle (env : Env) (req : Request) : M Answer :=
  match req with
  | GetList => list_files env
  | PostUpload file => upload_file env file
  | GetDownload file_name => download_file env file_name
  | DeleteDelete file_name => delete_file env file_name
  | PostSync local_folder => sync_files env local_folder
  | GetConfig => get_rclone_config env
  end.

End Api.

(** * Properties *)

(** ** Strings *)

Lemma string_two_step (P : string -> Prop) :
  P EmptyString ->
  (forall c, P (String c EmptyString)) ->
  (forall c d s, P s -> P (String d s) -> P (String c (String d s))) ->
  forall s, P s.
Proof.
  intros H0 H1 H2 s.
  assert (P s /\ forall c, P (String c s)) as [? _]; [|assumption].
  induction s as [|d s [IH1 IH2]]; split; auto.
Qed.

Lemma replace_dslash_cons c s :
  Str.replace_from "//" "/" 0 (String c s)
  = if Str.startswith "//" (String c s)
    then String "/" (Str.replace_from "//" "/" 1 s)
    else String c (Str.replace_from "//" "/" 0 s).
Proof. reflexivity. Qed.

Lemma replace_dslash_skip c s :
  Str.replace_from "//" "/" 1 (String c s) = Str.replace_from "//" "/" 0 s.
Proof. reflexivity. Qed.

Lemma startswith_dslash c d s :
  Str.startswith "//" (String c (String d s)) = Ascii.eqb c "/" && Ascii.eqb d "/".
Proof.
  cbn [Str.startswith].
  rewrite (Ascii.eqb_sym "/" c), (Ascii.eqb_sym "/" d), andb_true_r. reflexivity.
Qed.

Lemma replace_is_halve s : Str.replace "//" "/" s = halve s.
Proof.
  unfold Str.replace.
  induction s as [|c|c d s IH1 IH2] using string_two_step.
  - reflexivity.
  - rewrite replace_dslash_cons. cbn [Str.startswith halve].
    rewrite andb_false_r. reflexivity.
  - rewrite replace_dslash_cons, startswith_dslash. cbn [halve].
    destruct (Ascii.eqb c "/" && Ascii.eqb d "/") eqn:E.
    + rewrite replace_dslash_skip, IH1. reflexivity.
    + rewrite IH2. reflexivity.
Qed.

Lemma starts_with_slash_cons c s : starts_with_slash (String c s) = Ascii.eqb c "/".
Proof.
  unfold starts_with_slash. cbn [Str.startswith].
  rewrite andb_true_r. apply Ascii.eqb_sym.
Qed.

Lemma halve_head s : starts_with_slash (halve s) = starts_with_slash s.
Proof.
  destruct s as [|c [|d s]]; try reflexivity.
  cbn [halve]. destruct (Ascii.eqb c "/" && Ascii.eqb d "/") eqn:E.
  - apply andb_true_iff in E as [E _]. rewrite !starts_with_slash_cons, E. reflexivity.
  - rewrite !starts_with_slash_cons. reflexivity.
Qed.

Lemma startswith_dslash_cons c s :
  Str.startswith "//" (String c s) = Ascii.eqb c "/" && starts_with_slash s.
Proof.
  unfold starts_with_slash. cbn [Str.startswith].
  rewrite (Ascii.eqb_sym "/" c). reflexivity.
Qed.

Lemma contains_dslash_cons c s :
  Str.contains "//" (String c s)
  = (Ascii.eqb c "/" && starts_with_slash s) || Str.contains "//" s.
Proof. cbn [Str.contains]. rewrite startswith_dslash_cons. reflexivity. Qed.

Lemma contains_tslash_cons c s :
  Str.contains "///" (String c s)
  = (Ascii.eqb c "/" && Str.startswith "//" s) || Str.contains "///" s.
Proof.
  cbn [Str.contains Str.startswith]. rewrite (Ascii.eqb_sym "/" c). reflexivity.
Qed.

Lemma halve_cons2 c d s :
  halve (String c (String d s))
  = if Ascii.eqb c "/" && Ascii.eqb d "/" then String "/" (halve s)
    else String c (halve (String d s)).
Proof. reflexivity. Qed.

Lemma squeeze_cons2 c d s :
  squeeze (String c (String d s))
  = if Ascii.eqb c "/" && Ascii.eqb d "/" then squeeze (String d s)
    else String c (squeeze (String d s)).
Proof. reflexivity. Qed.

(** Where the text has no run of three separators, the pass leaves no two
    in a row and agrees with the full collapse. *)
Lemma halve_without_triple s :
  Str.contains "///" s = false ->
  Str.contains "//" (halve s) = false /\ halve s = squeeze s.
Proof.
  induction s as [|c|c d s IH1 IH2] using string_two_step; intros H.
  - split; reflexivity.
  - split; [|reflexivity]. cbn [halve Str.contains Str.startswith].
    rewrite andb_false_r. reflexivity.
  - rewrite contains_tslash_cons in H. apply orb_false_iff in H as [Hc Ht].
    pose proof Ht as Ht'.
    rewrite contains_tslash_cons in Ht'. apply orb_false_iff in Ht' as [Hd Hs].
    destruct (IH2 Ht) as [IH2a IH2b]. destruct (IH1 Hs) as [IH1a IH1b].
    rewrite halve_cons2, squeeze_cons2.
    destruct (Ascii.eqb c "/") eqn:Ec; cbn [andb].
    + destruct (Ascii.eqb d "/") eqn:Ed.
      * (* c = d = "/" : the third character is no separator *)
        rewrite startswith_dslash_cons, Ed in Hc. cbn [andb] in Hc.
        split.
        -- rewrite contains_dslash_cons, halve_head, Hc, IH1a, andb_false_r.
           reflexivity.
        -- apply Ascii.eqb_eq in Ed. subst d.
           destruct s as [|e s]; [reflexivity|].
           rewrite starts_with_slash_cons in Hc.
           rewrite IH1b, squeeze_cons2, Hc, andb_false_r. reflexivity.
      * split.
        -- rewrite contains_dslash_cons, halve_head, starts_with_slash_cons, Ed, IH2a.
           rewrite andb_false_r. reflexivity.
        -- rewrite IH2b. reflexivity.
    + split.
      * rewrite contains_dslash_cons, Ec, IH2a. reflexivity.
      * rewrite IH2b. reflexivity.
Qed.

(** ** The opening check *)

Lemma check_path_cases env path d w :
  (path_accepted env path = true /\ path_rejected env path = false
   /\ check_path env path d w = (inr tt, w))
  \/ (path_accepted env path = false /\ path_rejected env path = true
      /\ check_path env path d w = (inl (HTTPException 400 d), w))
  \/ (path_accepted env path = false /\ path_rejected env path = false
      /\ check_path env path d w
         = (inl (PyError "ValueError" "embedded null byte"), w)).
Proof.
  unfold path_accepted, path_rejected, check_path, resolve, bind.
  destruct (has_nul (path_str (Path path))); cbn.
  - right; right. auto.
  - destruct (Str.contains ".." _); cbn; auto.
Qed.

Lemma check_path_accepted env path d w :
  path_accepted env path = true -> check_path env path d w = (inr tt, w).
Proof.
  intros H. destruct (check_path_cases env path d w) as [(_ & _ & E)|[(A & _)|(A & _)]];
    [exact E|congruence|congruence].
Qed.

Lemma check_path_rejected env path d w :
  path_rejected env path = true ->
  check_path env path d w = (inl (HTTPException 400 d), w).
Proof.
  intros H. destruct (check_path_cases env path d w) as [(_ & A & _)|[(_ & _ & E)|(_ & A & _)]];
    [congruence|exact E|congruence].
Qed.

Lemma new_calls_app w l : skipn (List.length (calls w)) (calls w ++ l) = l.
Proof.
  rewrite skipn_app, Nat.sub_diag, skipn_all. reflexivity.
Qed.

(** ** Stepping through an endpoint *)

Lemma bind_ret {A B} (a : A) (k : A -> M B) w : bind (ret a) k w = k a w.
Proof. reflexivity. Qed.

Lemma bind_raise {A B} (e : exn) (k : A -> M B) w : bind (raise e) k w = (inl e, w).
Proof. reflexivity. Qed.


Lemma bind_spawn {B} env argv (k : Proc -> M B) w :
  bind (spawn env argv) k w
  = k (rclone env (List.length (calls w)) argv) (after_spawn env argv w).
Proof. reflexivity. Qed.

Lemma bind_check_accepted {B} env path d (k : unit -> M B) w :
  path_accepted env path = true -> bind (check_path env path d) k w = k tt w.
Proof. intros H. unfold bind. rewrite (check_path_accepted _ _ _ _ H). reflexivity. Qed.

Lemma calls_after_spawn env argv w : calls (after_spawn env argv w) = calls w ++ [argv].
Proof. reflexivity. Qed.

Lemma table_after_spawn env argv w : table (after_spawn env argv w) = table w.
Proof. reflexivity. Qed.

Lemma pending_after_spawn env argv w : pending (after_spawn env argv w) = pending w.
Proof. reflexivity. Qed.

Lemma writes_after_spawn env argv w : writes (after_spawn env argv w) = writes w.
Proof. reflexivity. Qed.

Lemma uploaded_after_spawn env argv w :
  uploaded_files (after_spawn env argv w) = uploaded_files w.
Proof. reflexivity. Qed.

(** ** Delete resolution *)








(** ** The listing translator *)

Lemma list_files_eq env path w :
  path_accepted env path = true ->
  let process := rclone env (List.length (calls w)) (list_argv path) in
  list_files env path w
  = (if returncode process =? 0
     then match json_loads env (stdout process) with
          | inl msg => inl (HTTPException 500 msg)
          | inr entries => inr (FileItems (map (to_FileItem path) entries))
          end
     else inl (HTTPException 500 ("500: Failed to list files: " +:+ stderr process)),
     after_spawn env (list_argv path) w).
Proof.
  intros Hacc. cbv zeta. unfold list_files, except_Exception.
  rewrite (bind_check_accepted _ _ _ _ _ Hacc), bind_spawn.
  destruct (returncode _ =? 0); [|reflexivity].
  cbn [negb]. destruct (json_loads env _); reflexivity.
Qed.

(** An endpoint that opens with the check and does not pass it: the
    [HTTPException] with status 400 is caught with every other exception
    and raised again with status 500. *)
Lemma except_check_not_accepted {A} env path d (k : M A) w :
  path_accepted env path = false ->
  except_Exception (bind (check_path env path d) (fun _ => k)) w
  = (inl (HTTPException 500
            (if path_rejected env path then "400: " +:+ d else "embedded null byte")), w).
Proof.
  intros H. unfold except_Exception, bind.
  destruct (check_path_cases env path d w) as [(A1 & _)|[(_ & R & E)|(_ & R & E)]];
    [congruence| |]; rewrite E, R; reflexivity.
Qed.

Lemma to_FileItem_id path e :
  id (to_FileItem path e) = Str.replace "//" "/" (path +:+ "/" +:+ entry_Path e).
Proof. reflexivity. Qed.

(** C9, as stated, fails: listing the base path ["a//"] returns for the entry
    ["b.txt"] an identifier that still holds a doubled separator. *)
Lemma listing_identifier_counterexample :
  (list_files env_listing "a//" world_started).1
  = inr (FileItems [mkFileItem "a//b.txt" "b.txt" "file" 12 "2024-05-01T10:00:00Z"
                      "a//b.txt"])
  /\ Str.contains "//" "a//b.txt" = true
  /\ "a//b.txt" <> squeeze ("a//" +:+ "/" +:+ "b.txt").
Proof. split; [|split]; [vm_compute; reflexivity|reflexivity|discriminate]. Qed.

(** C9, amended: when the listing succeeds it returns one FileItem per entry
    of the adapter's listing, in the adapter's order; the identifier of each
    is the base path, a separator and the entry's path, with every pair of
    adjacent separators met in one pass from the left replaced by a single
    one. Where that text has no run of three or more separators the
    identifier has all duplicate separators collapsed. *)
Theorem listing_identifiers env path w items :
  (list_files env path w).1 = inr (FileItems items) ->
  exists entries,
    json_loads env (stdout (rclone env (List.length (calls w)) (list_argv path)))
    = inr entries
    /\ Forall2 (fun e item =>
         let joined := path +:+ "/" +:+ entry_Path e in
         id item = Str.replace "//" "/" joined
         /\ name item = entry_Name e
         /\ (Str.contains "///" joined = false ->
             id item = squeeze joined /\ Str.contains "//" (id item) = false))
       entries items.
Proof.
  intros H.
  destruct (path_accepted env path) eqn:Hacc.
  - rewrite (list_files_eq env path w Hacc) in H. cbn [fst] in H.
    destruct (returncode _ =? 0); [|discriminate].
    destruct (json_loads env _) as [msg|entries]; [discriminate|].
    injection H as <-. exists entries. split; [reflexivity|].
    induction entries as [|e entries IH]; constructor; [|exact IH].
    cbv zeta. rewrite to_FileItem_id. split; [reflexivity|]. split; [reflexivity|].
    intros Hno. rewrite replace_is_halve.
    destruct (halve_without_triple _ Hno) as [Hd Hs]. auto.
  - unfold list_files in H. rewrite except_check_not_accepted in H by exact Hacc.
    discriminate.
Qed.

Lemma listing_identifiers_witness :
  exists entries,
    json_loads env_listing
      (stdout (rclone env_listing (List.length (calls world_started)) (list_argv "/docs/")))
    = inr entries
    /\ Forall2 (fun e item =>
         let joined := "/docs/" +:+ "/" +:+ entry_Path e in
         id item = Str.replace "//" "/" joined
         /\ name item = entry_Name e
         /\ (Str.contains "///" joined = false ->
             id item = squeeze joined /\ Str.contains "//" (id item) = false))
       entries
       [mkFileItem "/docs/b.txt" "b.txt" "file" 12 "2024-05-01T10:00:00Z" "/docs/b.txt"].
Proof.
  exact (listing_identifiers env_listing "/docs/" world_started _ eq_refl).
Defined.

(** ** What a rejection by the opening check becomes *)

Lemma rejected_not_accepted env path :
  path_rejected env path = true -> path_accepted env path = false.
Proof.
  intros H. destruct (check_path_cases env path EmptyString empty_world)
    as [(_ & R & _)|[(A & _)|(A & _)]]; congruence.
Qed.

Lemma path_rejected_iff env path :
  path_rejected env path = true
  <-> has_nul (path_str (Path path)) = false
      /\ Str.contains ".." (path_str (resolved env (Path path))) = true.
Proof.
  unfold path_rejected, check_path, resolve, bind.
  destruct (has_nul _); cbn; [intuition discriminate|].
  destruct (Str.contains ".." _); cbn; intuition discriminate.
Qed.

Lemma new_calls_same w : new_calls w w = [].
Proof. unfold new_calls. apply skipn_all. Qed.

Lemma move_file_rejected env source destination w :
  path_rejected env source = true \/ path_rejected env destination = true ->
  exists d, move_file env source destination w = (inl (HTTPException 500 d), w).
Proof.
  intros H. unfold move_file, except_Exception, bind, resolve.
  destruct (has_nul (path_str (Path source))) eqn:Ns; cbn [ret raise]; [eauto|].
  destruct (has_nul (path_str (Path destination))) eqn:Nd; cbn [ret raise]; [eauto|].
  assert (Str.contains ".." (path_str (resolved env (Path source)))
          || Str.contains ".." (path_str (resolved env (Path destination))) = true) as ->.
  { apply orb_true_iff. destruct H as [H|H]; apply path_rejected_iff in H; tauto. }
  cbn [ret raise]. eauto.
Qed.

(** C6, on the code: a path the opening check rejects is answered with
    status 500, never with a client error, by every endpoint that takes a
    path; no subprocess is spawned. *)
Theorem rejected_path_is_server_error env req w p :
  In p (request_paths req) ->
  path_rejected env p = true ->
  status (serve env req w) = 500
  /\ client_error (status (serve env req w)) = false
  /\ new_calls w (handle env req w).2 = [].
Proof.
  intros Hin Hrej.
  assert (exists d w', handle env req w = (inl (HTTPException 500 d), w')
                       /\ calls w' = calls w) as (d & w' & E & Hc).
  { pose proof (rejected_not_accepted _ _ Hrej) as Hna.
    destruct req as [q|q|q|q|s d|f|fs folder u]; cbn [request_paths In] in Hin;
      try (destruct Hin as [<-|[]]; cbn [handle];
           unfold list_files, download_file, delete_file, create_directory;
           rewrite except_check_not_accepted by exact Hna;
           do 2 eexists; split; reflexivity).
    - destruct (move_file_rejected env s d w) as [x Hx].
      { destruct Hin as [<-|[<-|[]]]; auto. }
      cbn [handle]. rewrite Hx. do 2 eexists; split; reflexivity.
    - destruct Hin.
    - destruct Hin as [<-|[]]. cbn [handle]. unfold upload_multiple_files, get_db.
      rewrite except_check_not_accepted by exact Hna.
      do 2 eexists; split; reflexivity. }
  unfold serve. rewrite E. cbn [send status fst snd].
  split; [reflexivity|]. split; [reflexivity|].
  unfold new_calls. rewrite Hc. apply skipn_all.
Qed.

Lemma rejected_path_is_server_error_witness :
  serve env_ok (GetFiles "a..b") world_started
  = mkHttp 500 (DetailBody "400: Invalid path")
  /\ status (serve env_ok (GetFiles "a..b") world_started) = 500
  /\ client_error (status (serve env_ok (GetFiles "a..b") world_started)) = false
  /\ new_calls world_started (handle env_ok (GetFiles "a..b") world_started).2 = [].
Proof.
  split; [vm_compute; reflexivity|].
  apply (rejected_path_is_server_error env_ok (GetFiles "a..b") world_started "a..b").
  - left. reflexivity.
  - vm_compute. reflexivity.
Defined.

(** ** Traversal segments *)

Lemma removelast_Forall {A} (P : A -> Prop) (l : list A) :
  Forall P l -> Forall P (removelast l).
Proof.
  induction l as [|x l IH]; intros H; [constructor|].
  inversion H as [|? ? Hx Hl]; subst. cbn [removelast].
  destruct l; [constructor|]. constructor; [exact Hx|apply IH, Hl].
Qed.

Lemma realpath_step_no_parent stack name :
  Forall (fun x => x <> "..") stack ->
  Forall (fun x => x <> "..") (realpath_step stack name).
Proof.
  intros H. unfold realpath_step. destruct (String.eqb_spec name "..") as [->|Hne].
  - apply removelast_Forall, H.
  - apply Forall_app. split; [exact H|]. constructor; [exact Hne|constructor].
Qed.

(** Resolving leaves no parent-directory part: whatever the supplied path,
    if the working directory has no [".."] part then neither has the
    resolved path. The check that follows can therefore only meet [".."]
    inside a longer name. *)
Lemma resolved_has_no_parent_part env p :
  Forall (fun x => x <> "..") (cwd env) ->
  Forall (fun x => x <> "..") (parts (resolved env p)).
Proof.
  intros Hcwd. unfold resolved. cbn [parts].
  assert (forall names stack,
            Forall (fun x => x <> "..") stack ->
            Forall (fun x => x <> "..") (fold_left realpath_step names stack)) as H.
  { induction names as [|n names IH]; intros stack Hs; [exact Hs|].
    cbn [fold_left]. apply IH, realpath_step_no_parent, Hs. }
  apply H. destruct (root p); [exact Hcwd|constructor].
Qed.

(** C1, on the code: the path ["../secret"] has a parent-directory segment,
    yet each of the six endpoints that take a path spawns rclone on it, and
    none answers with a client error. Resolving the path removes the
    segment before the check looks for it, and the command line is built
    from the path as supplied. *)
Theorem traversal_path_reaches_rclone :
  has_traversal_segment "../secret" = true
  /\ path_accepted env_ok "../secret" = true
  /\ Forall (fun req =>
       spawned_with "../secret" (new_calls world_started (handle env_ok req world_started).2)
       = true
       /\ client_error (status (serve env_ok req world_started)) = false)
     (path_requests "../secret").
Proof.
  split; [reflexivity|]. split; [vm_compute; reflexivity|].
  repeat constructor; vm_compute; reflexivity.
Qed.

(** ** Inverting a run that ended normally *)

Lemma bind_inr {A B} (m : M A) (k : A -> M B) w b w' :
  bind m k w = (inr b, w') -> exists a w1, m w = (inr a, w1) /\ k a w1 = (inr b, w').
Proof.
  unfold bind. destruct (m w) as [[e|a] w1]; [discriminate|]. eauto.
Qed.

Lemma path_exists_run p w :
  path_exists p w = (inr (bool_decide (is_Some (fs w !! p))), w).
Proof. reflexivity. Qed.

Lemma unlink_inr p w u w' :
  unlink p w = (inr u, w') ->
  (exists c, fs w !! p = Some (File c)) /\ w' = set_fs (delete p) w.
Proof.
  unfold unlink. destruct (fs w !! p) as [[c|]|]; intros [= <-]; eauto.
Qed.

Lemma any_iterdir_inr d w b w' :
  any_iterdir d w = (inr b, w') -> fs w !! d = Some Dir /\ w' = w.
Proof.
  unfold any_iterdir. destruct (fs w !! d) as [[c|]|]; intros [= <- <-]; eauto.
Qed.

Lemma rmdir_inr d w u w' :
  rmdir d w = (inr u, w') -> w' = set_fs (delete d) w.
Proof.
  unfold rmdir. destruct (fs w !! d) as [[c|]|]; intros [= <-]; eauto.
Qed.

Lemma unlink_if_there_absent (there : bool) p w u w' :
  there = bool_decide (is_Some (fs w !! p)) ->
  (if there then unlink p else ret tt) w = (inr u, w') ->
  fs w' !! p = None.
Proof.
  intros -> H. destruct (fs w !! p) as [n|] eqn:E.
  - rewrite bool_decide_true in H by eauto.
    apply unlink_inr in H as [_ ->]. cbn [set_fs fs]. apply lookup_delete_eq.
  - rewrite bool_decide_false in H by (intros [? ?]; discriminate).
    injection H as ? ?; subst. exact E.
Qed.

Lemma download_finally_removes lp td w u w' :
  download_finally lp td w = (inr u, w') -> fs w' !! path_str lp = None.
Proof.
  unfold download_finally. intros H.
  apply bind_inr in H as (there & w1 & H1 & H).
  rewrite path_exists_run in H1. injection H1 as <- <-.
  apply bind_inr in H as (u1 & w2 & H2 & H).
  apply unlink_if_there_absent in H2; [|reflexivity].
  apply bind_inr in H as (occupied & w3 & H3 & H).
  apply any_iterdir_inr in H3 as [_ ->].
  destruct occupied.
  - injection H as ? ?; subst. exact H2.
  - apply rmdir_inr in H as ->. cbn [set_fs fs].
    apply lookup_delete_None. right. exact H2.
Qed.

Lemma try_finally_inr {A} (body : M A) cleanup w a w' :
  try_finally body cleanup w = (inr a, w') ->
  exists w1 u, body w = (inr a, w1) /\ cleanup w1 = (inr u, w').
Proof.
  unfold try_finally. destruct (body w) as [r w1].
  destruct (cleanup w1) as [[e|u] w2] eqn:E; [discriminate|].
  intros [= -> ->]. eauto.
Qed.

Lemma except_inr {A} (body : M A) w a w' :
  except_Exception body w = (inr a, w') -> body w = (inr a, w').
Proof.
  unfold except_Exception. destruct (body w) as [[e|x] w1]; [discriminate|auto].
Qed.

Lemma except_inl {A} (body : M A) w e w' :
  except_Exception body w = (inl e, w') -> exists d, e = HTTPException 500 d.
Proof.
  unfold except_Exception. destruct (body w) as [[x|x] w1]; [|discriminate].
  intros [= <- _]. eauto.
Qed.

Lemma download_try_inr env path lp w r w' :
  download_try env path lp w = (inr r, w') ->
  r = FileResponse (path_str lp) (path_name (Path path)) "application/octet-stream".
Proof.
  unfold download_try. rewrite bind_spawn.
  destruct (negb _); [discriminate|]. intros [= <- _]. reflexivity.
Qed.

(** When the download endpoint returns normally, what it returns is the
    response for the local copy, and that copy no longer exists. *)
Lemma download_file_inr env path w r w' :
  download_file env path w = (inr r, w') ->
  r = FileResponse (path_str (download_local_path path)) (path_name (Path path))
        "application/octet-stream"
  /\ fs w' !! path_str (download_local_path path) = None.
Proof.
  unfold download_file. intros H. apply except_inr in H.
  apply bind_inr in H as (u1 & w1 & _ & H).
  apply bind_inr in H as (u2 & w2 & _ & H).
  apply try_finally_inr in H as (w3 & u3 & Hb & Hc).
  split.
  - eapply download_try_inr; eauto.
  - eapply download_finally_removes; eauto.
Qed.

(** C7, on the code: the [finally] block runs before the endpoint hands its
    [FileResponse] to the framework, so whenever the download endpoint
    returns one, the local copy it names is already deleted; the file's
    contents are never the response body, and every download request is
    answered with status 500. *)
Theorem download_never_streams env path w :
  status (serve env (GetDownload path) w) = 500.
Proof.
  unfold serve. cbn [handle].
  destruct (download_file env path w) as [[e|r] w'] eqn:E.
  - apply except_inl in E as [d ->]. reflexivity.
  - apply download_file_inr in E as [-> Hnone]. cbn [send]. rewrite Hnone. reflexivity.
Qed.

(** The same on a download whose copy-down succeeded and fetched the file:
    the endpoint returns the response for [temp_downloads/report.txt], the
    file and the directory are gone, the client gets status 500. *)
Lemma download_after_cleanup_example :
  (download_file env_download "docs/report.txt" world_started).1
  = inr (FileResponse "temp_downloads/report.txt" "report.txt" "application/octet-stream")
  /\ fs (download_file env_download "docs/report.txt" world_started).2
       !! "temp_downloads/report.txt" = None
  /\ fs (download_file env_download "docs/report.txt" world_started).2
       !! "temp_downloads" = None
  /\ serve env_download (GetDownload "docs/report.txt") world_started
     = mkHttp 500 InternalServerError.
Proof. repeat split; vm_compute; reflexivity. Qed.

(** ** The local file system under subprocesses, writes and removals *)

Lemma deposit_is_dir f kc k : is_dir (deposit f kc !! k) = is_dir (f !! k).
Proof.
  unfold deposit. destruct (f !! kc.1) as [[c|]|] eqn:E; try reflexivity.
  - destruct (decide (kc.1 = k)) as [<-|Hne].
    + rewrite lookup_insert_eq, E. reflexivity.
    + rewrite lookup_insert_ne by exact Hne. reflexivity.
  - destruct (decide (kc.1 = k)) as [<-|Hne].
    + rewrite lookup_insert_eq, E. reflexivity.
    + rewrite lookup_insert_ne by exact Hne. reflexivity.
Qed.

Lemma deposit_is_file f kc k :
  is_file (f !! k) = true -> is_file (deposit f kc !! k) = true.
Proof.
  unfold deposit. intros H. destruct (f !! kc.1) as [[c|]|] eqn:E; try exact H.
  - destruct (decide (kc.1 = k)) as [<-|Hne].
    + rewrite lookup_insert_eq. reflexivity.
    + rewrite lookup_insert_ne by exact Hne. exact H.
  - destruct (decide (kc.1 = k)) as [<-|Hne].
    + rewrite lookup_insert_eq. reflexivity.
    + rewrite lookup_insert_ne by exact Hne. exact H.
Qed.

Lemma deposits_is_dir l f k : is_dir (fold_left deposit l f !! k) = is_dir (f !! k).
Proof.
  revert f. induction l as [|kc l IH]; intros f; [reflexivity|].
  cbn [fold_left]. rewrite IH. apply deposit_is_dir.
Qed.

Lemma deposits_is_file l f k :
  is_file (f !! k) = true -> is_file (fold_left deposit l f !! k) = true.
Proof.
  revert f. induction l as [|kc l IH]; intros f H; [exact H|].
  cbn [fold_left]. apply IH, deposit_is_file, H.
Qed.

Lemma fs_after_spawn env argv w :
  fs (after_spawn env argv w)
  = fold_left deposit (deposits (rclone env (List.length (calls w)) argv)) (fs w).
Proof. reflexivity. Qed.

Lemma is_dir_after_spawn env argv w k :
  is_dir (fs (after_spawn env argv w) !! k) = is_dir (fs w !! k).
Proof. rewrite fs_after_spawn. apply deposits_is_dir. Qed.

Lemma is_file_after_spawn env argv w k :
  is_file (fs w !! k) = true -> is_file (fs (after_spawn env argv w) !! k) = true.
Proof. rewrite fs_after_spawn. apply deposits_is_file. Qed.

Lemma write_file_cases p body w :
  (is_dir (fs w !! p) = true
   /\ exists e, write_file p body w = (inl (PyError "IsADirectoryError" e), w))
  \/ (is_dir (fs w !! p) = false /\ write_file p body w = (inr tt, after_write p body w)).
Proof.
  unfold write_file. destruct (fs w !! p) as [[c|]|]; cbn; eauto.
Qed.

Lemma unlink_if_exists_file p w :
  is_file (fs w !! p) = true ->
  unlink_if_exists p w = (inr tt, set_fs (delete p) w).
Proof.
  unfold unlink_if_exists, bind. rewrite path_exists_run.
  destruct (fs w !! p) as [[c|]|] eqn:E; try discriminate. intros _.
  rewrite bool_decide_true by eauto. unfold unlink. rewrite E. reflexivity.
Qed.

Lemma unlink_if_exists_absent p w :
  fs w !! p = None -> unlink_if_exists p w = (inr tt, w).
Proof.
  unfold unlink_if_exists, bind. rewrite path_exists_run. intros ->.
  rewrite bool_decide_false by (intros [? ?]; discriminate). reflexivity.
Qed.

Lemma upload_finally_eq p : upload_finally p = unlink_if_exists p.
Proof. reflexivity. Qed.

Lemma upload_file_run env file w :
  let loc := upload_location file in
  let process := rclone env (List.length (calls w)) (upload_argv loc) in
  (is_dir (fs w !! loc) = true
   /\ exists d, upload_file env file w = (inl (HTTPException 500 d), w))
  \/ (is_dir (fs w !! loc) = false
      /\ exists w',
          upload_file env file w
          = (if returncode process =? 0
             then inr (JSONUpload (uf_filename file) "success" "File uploaded successfully")
             else inl (HTTPException 500
                         ("500: Failed to upload to cloud storage: " +:+ stderr process)),
             w')
          /\ calls w' = calls w ++ [upload_argv loc]
          /\ writes w' = writes w ++ [loc]
          /\ table w' = table w
          /\ fs w' !! loc = None).
Proof.
  cbv zeta. unfold upload_file, except_Exception.
  destruct (write_file_cases (upload_location file) (uf_body file) w) as [[Hd [e E]]|[Hd E]].
  - left. split; [exact Hd|]. unfold bind at 1. rewrite E. eauto.
  - right. split; [exact Hd|]. unfold bind at 1. rewrite E.
    set (wa := after_write _ _ w).
    set (wb := after_spawn env (upload_argv (upload_location file)) wa).
    assert (is_file (fs wb !! upload_location file) = true) as Hf.
    { apply is_file_after_spawn. unfold wa, after_write. cbn [fs].
      rewrite lookup_insert_eq. reflexivity. }
    exists (set_fs (delete (upload_location file)) wb).
    split.
    + unfold bind at 1, try_finally, upload_try. rewrite bind_spawn. fold wb.
      rewrite upload_finally_eq.
      change (calls wa) with (calls w).
      destruct (returncode _ =? 0); cbn [negb raise ret];
        rewrite (unlink_if_exists_file _ _ Hf); reflexivity.
    + cbn [set_fs calls writes table fs]. repeat split; try reflexivity.
      apply lookup_delete_eq.
Qed.

(** ** The batch upload *)

Lemma batch_dir_eq : batch_dir = "uploads/temp".
Proof. reflexivity. Qed.

Lemma same_records_refl w : same_records w w.
Proof. repeat split. Qed.

Lemma same_records_trans w1 w2 w3 :
  same_records w1 w2 -> same_records w2 w3 -> same_records w1 w3.
Proof.
  unfold same_records. intros (a & b & c & d & e) (a' & b' & c' & d' & e').
  repeat split; congruence.
Qed.

Lemma same_records_set_fs f w : same_records w (set_fs f w).
Proof. repeat split. Qed.

Lemma is_dir_delete k j (f : gmap string node) :
  is_dir (f !! j) = false -> is_dir (delete k f !! j) = false.
Proof.
  intros H. destruct (decide (k = j)) as [<-|Hne].
  - rewrite lookup_delete_eq. reflexivity.
  - rewrite lookup_delete_ne by exact Hne. exact H.
Qed.

Lemma is_dir_delete_file k j c (f : gmap string node) :
  f !! k = Some (File c) -> is_dir (delete k f !! j) = is_dir (f !! j).
Proof.
  intros H. destruct (decide (k = j)) as [<-|Hne].
  - rewrite lookup_delete_eq, H. reflexivity.
  - rewrite lookup_delete_ne by exact Hne. reflexivity.
Qed.

Lemma absent_delete k j (f : gmap string node) :
  f !! j = None -> delete k f !! j = None.
Proof. intros H. apply lookup_delete_None. right. exact H. Qed.

(** The cleanup loop over paths none of which is a directory. *)
Lemma unlink_loop l : forall w,
  Forall (fun k => is_dir (fs w !! k) = false) l ->
  exists w',
    for_each l unlink_if_exists w = (inr tt, w')
    /\ Forall (fun k => fs w' !! k = None) l
    /\ (forall k, is_dir (fs w' !! k) = is_dir (fs w !! k))
    /\ (forall k, fs w !! k = None -> fs w' !! k = None)
    /\ same_records w w'.
Proof.
  induction l as [|k l IH]; intros w H.
  - exists w. repeat split; auto.
  - inversion H as [|? ? Hk Hl]; subst.
    assert (exists w1, unlink_if_exists k w = (inr tt, w1)
                       /\ fs w1 !! k = None
                       /\ (forall j, is_dir (fs w1 !! j) = is_dir (fs w !! j))
                       /\ (forall j, fs w !! j = None -> fs w1 !! j = None)
                       /\ same_records w w1) as (w1 & E1 & Hk1 & Hd1 & Hn1 & Hs1).
    { destruct (fs w !! k) as [[c|]|] eqn:E; [| discriminate |].
      - exists (set_fs (delete k) w). split.
        + apply unlink_if_exists_file. rewrite E. reflexivity.
        + cbn [set_fs fs]. split; [apply lookup_delete_eq|].
          split; [intros j; eapply is_dir_delete_file; eauto|].
          split; [intros j; apply absent_delete|apply same_records_set_fs].
      - exists w. split; [apply unlink_if_exists_absent, E|].
        repeat split; auto. }
    destruct (IH w1) as (w' & E' & Hall & Hd & Hn & Hs).
    { eapply Forall_impl; [exact Hl|]. cbn. intros j Hj. rewrite Hd1. exact Hj. }
    exists w'. split.
    + cbn [for_each]. unfold bind. rewrite E1. exact E'.
    + split; [constructor; [apply Hn, Hk1|exact Hall]|].
      split; [intros j; rewrite Hd, Hd1; reflexivity|].
      split; [intros j Hj; apply Hn, Hn1, Hj|].
      eapply same_records_trans; eauto.
Qed.

Lemma rmtree_dir d w :
  is_dir (fs w !! d) = true ->
  exists w', rmtree d w = (inr tt, w')
             /\ fs w' !! d = None
             /\ (forall k, fs w !! k = None -> fs w' !! k = None)
             /\ same_records w w'.
Proof.
  intros H. unfold rmtree. destruct (fs w !! d) as [[c|]|] eqn:E; try discriminate.
  eexists. split; [reflexivity|]. cbn [set_fs fs].
  split; [|split; [|apply same_records_set_fs]].
  - apply map_lookup_filter_None. left. apply lookup_delete_eq.
  - intros k Hk. apply map_lookup_filter_None. left. apply absent_delete, Hk.
Qed.

Lemma batch_finally_run before w :
  staging_inv before w ->
  exists w', batch_finally batch_temp_dir w = (inr tt, w')
             /\ fs w' !! batch_dir = None
             /\ Forall (fun k => fs w' !! k = None) (uploaded_files w)
             /\ same_records w w'.
Proof.
  intros (Hdir & Hst & _).
  destruct (unlink_loop _ w Hst) as (w1 & E1 & Hall & Hd & Hn & Hs).
  destruct (rmtree_dir batch_dir w1) as (w2 & E2 & Hgone & Hn2 & Hs2).
  { rewrite Hd. exact Hdir. }
  exists w2. split.
  - unfold batch_finally, bind, get_uploaded_files. rewrite E1.
    rewrite path_exists_run. fold batch_dir.
    rewrite bool_decide_true.
    + exact E2.
    + specialize (Hd batch_dir). rewrite Hdir in Hd.
      destruct (fs w1 !! batch_dir); [eauto|discriminate].
  - split; [exact Hgone|]. split.
    + eapply Forall_impl; [exact Hall|]. cbn. intros k. apply Hn2.
    + eapply same_records_trans; eauto.
Qed.

Lemma batch_stage_cons file files :
  batch_stage (file :: files) = bind (stage_one file) (fun _ => batch_stage files).
Proof. reflexivity. Qed.

Lemma stage_one_run before file w :
  staging_inv before w ->
  (exists k m, stage_one file w = (inl (PyError k m), w))
  \/ (exists w1, stage_one file w = (inr tt, w1)
                 /\ staging_inv before w1
                 /\ uploaded_files w1 = uploaded_files w ++ [batch_location file]
                 /\ table w1 = table w /\ pending w1 = pending w /\ calls w1 = calls w).
Proof.
  intros (Hdir & Hst & Hw). unfold stage_one, bind.
  destruct (write_file_cases (batch_location file) (uf_body file) w) as [[Hd [e E]]|[Hd E]];
    rewrite E; [left; eauto|right].
  eexists. split; [reflexivity|]. cbn [uploaded_files table pending calls after_write fs writes].
  split; [|auto].
  assert (batch_location file <> batch_dir) as Hne by congruence.
  split; [|split]; cbn [fs uploaded_files writes].
  - rewrite lookup_insert_ne by exact Hne. exact Hdir.
  - apply Forall_app. split.
    + eapply Forall_impl; [exact Hst|]. cbn. intros k Hk.
      destruct (decide (batch_location file = k)) as [<-|Hk'].
      * rewrite lookup_insert_eq. reflexivity.
      * rewrite lookup_insert_ne by exact Hk'. exact Hk.
    + constructor; [|constructor]. rewrite lookup_insert_eq. reflexivity.
  - rewrite Hw, <- app_assoc. reflexivity.
Qed.

Lemma batch_stage_run before files : forall w,
  staging_inv before w ->
  exists r w1,
    batch_stage files w = (r, w1)
    /\ staging_inv before w1
    /\ table w1 = table w /\ pending w1 = pending w /\ calls w1 = calls w
    /\ (exists n, uploaded_files w1
                  = uploaded_files w ++ map batch_location (firstn n files))
    /\ match r with
       | inr _ => uploaded_files w1 = uploaded_files w ++ map batch_location files
       | inl e => exists k m, e = PyError k m
       end.
Proof.
  induction files as [|file files IH]; intros w Hinv.
  - exists (inr tt), w. cbn [map]. rewrite app_nil_r.
    split; [reflexivity|]. split; [exact Hinv|]. do 3 (split; [reflexivity|]).
    split; [|reflexivity]. exists 0%nat. cbn. rewrite app_nil_r. reflexivity.
  - rewrite batch_stage_cons. unfold bind.
    destruct (stage_one_run before file w Hinv)
      as [(k & m & E)|(w1 & E & Hinv1 & Hup & Ht & Hp & Hc)]; rewrite E.
    + exists (inl (PyError k m)), w.
      split; [reflexivity|]. split; [exact Hinv|]. do 3 (split; [reflexivity|]).
      split; [|eauto]. exists 0%nat. cbn. rewrite app_nil_r. reflexivity.
    + destruct (IH w1 Hinv1) as (r & w2 & E2 & Hinv2 & Ht2 & Hp2 & Hc2 & [n Hn] & Hr).
      exists r, w2. split; [exact E2|]. split; [exact Hinv2|].
      split; [congruence|]. split; [congruence|]. split; [congruence|]. split.
      * exists (S n). rewrite Hn, Hup, <- app_assoc. reflexivity.
      * destruct r; [exact Hr|]. rewrite Hr, Hup, <- app_assoc. reflexivity.
Qed.

Lemma staging_inv_after_spawn before env argv w :
  staging_inv before w -> staging_inv before (after_spawn env argv w).
Proof.
  intros (Hdir & Hst & Hw). split; [|split].
  - rewrite is_dir_after_spawn. exact Hdir.
  - rewrite uploaded_after_spawn. eapply Forall_impl; [exact Hst|].
    cbn beta. intros k Hk. rewrite is_dir_after_spawn. exact Hk.
  - rewrite writes_after_spawn, uploaded_after_spawn. exact Hw.
Qed.

Lemma db_add_loop {A} (f : A -> FileUpload) l : forall w,
  for_each l (fun x => db_add (f x)) w = (inr tt, with_pending (pending w ++ map f l) w).
Proof.
  induction l as [|x l IH]; intros w.
  - cbn. rewrite app_nil_r. destruct w; reflexivity.
  - cbn [for_each]. unfold bind. unfold db_add at 1. rewrite IH.
    cbn [pending map]. rewrite <- app_assoc. reflexivity.
Qed.

Lemma batch_copy_run before env files folder u w :
  staging_inv before w ->
  let process := rclone env (S (List.length (calls w))) (batch_argv folder) in
  exists w',
    batch_copy env files folder u w
    = (if returncode process =? 0 then inr tt
       else inl (HTTPException 500
                   ("Failed to upload to cloud storage: " +:+ stderr process)), w')
    /\ staging_inv before w'
    /\ calls w' = calls w ++ [batch_argv folder; batch_argv folder]
    /\ uploaded_files w' = uploaded_files w
    /\ table w'
       = if returncode process =? 0
         then table w ++ pending w ++ map (batch_record folder u) files
         else table w.
Proof.
  intros Hinv. cbv zeta. unfold batch_copy.
  rewrite bind_spawn, bind_spawn.
  set (w1 := after_spawn env (batch_argv folder) w).
  set (w2 := after_spawn env (batch_argv folder) w1).
  assert (staging_inv before w2) as Hinv2 by (do 2 apply staging_inv_after_spawn; exact Hinv).
  assert (calls w2 = calls w ++ [batch_argv folder; batch_argv folder]) as Hc.
  { unfold w2, w1. rewrite !calls_after_spawn, <- app_assoc. reflexivity. }
  replace (List.length (calls w1)) with (S (List.length (calls w))).
  2:{ unfold w1. rewrite calls_after_spawn, length_app. cbn. lia. }
  destruct (returncode _ =? 0).
  - cbn [negb]. unfold bind. rewrite db_add_loop. unfold db_commit.
    eexists. split; [reflexivity|]. cbn [with_pending fs table calls writes uploaded_files pending].
    split; [exact Hinv2|]. split; [exact Hc|]. split; reflexivity.
  - cbn [negb raise]. exists w2. auto.
Qed.

(** The protected part of the batch upload, from a world in which the
    staging directory stands and nothing is staged yet. *)
Lemma batch_protected_run before env files folder u w :
  staging_inv before w ->
  uploaded_files w = [] ->
  let process := rclone env (S (List.length (calls w))) (batch_argv folder) in
  exists r w',
    try_finally (batch_try env files folder u) (batch_finally batch_temp_dir) w = (r, w')
    /\ fs w' !! batch_dir = None
    /\ Forall (fun k => fs w' !! k = None) (skipn (List.length before) (writes w'))
    /\ ((exists k m, r = inl (PyError k m))
        /\ calls w' = calls w /\ table w' = table w
        /\ (exists n, writes w' = before ++ map batch_location (firstn n files))
        \/ r = (if returncode process =? 0 then inr tt
                else inl (HTTPException 500
                            ("Failed to upload to cloud storage: " +:+ stderr process)))
           /\ calls w' = calls w ++ [batch_argv folder; batch_argv folder]
           /\ writes w' = before ++ map batch_location files
           /\ table w'
              = if returncode process =? 0
                then table w ++ pending w ++ map (batch_record folder u) files
                else table w).
Proof.
  intros Hinv Hnil. cbv zeta. unfold try_finally, batch_try, bind.
  destruct (batch_stage_run before files w Hinv)
    as (r1 & w1 & E1 & Hinv1 & Ht1 & Hp1 & Hc1 & [n Hn] & Hr1).
  rewrite E1. rewrite Hnil in Hn, Hr1. cbn [app] in Hn, Hr1.
  destruct r1 as [e|[]].
  - destruct Hr1 as (k & m & ->).
    destruct (batch_finally_run before w1 Hinv1) as (w2 & E2 & Hgone & Habs & Hs).
    rewrite E2. destruct Hs as (Ht2 & Hp2 & Hc2 & Hw2 & Hu2).
    destruct Hinv1 as (_ & _ & Hw1).
    assert (writes w2 = before ++ uploaded_files w1) as Hw by congruence.
    exists (inl (PyError k m)), w2. split; [reflexivity|]. split; [exact Hgone|].
    split; [rewrite Hw, skipn_app, Nat.sub_diag, skipn_all; exact Habs|].
    left. split; [eauto|]. split; [congruence|]. split; [congruence|].
    exists n. rewrite Hw, Hn. reflexivity.
  - destruct (batch_copy_run before env files folder u w1 Hinv1)
      as (w2 & E2 & Hinv2 & Hc2 & Hu2 & Ht2).
    rewrite E2.
    destruct (batch_finally_run before w2 Hinv2) as (w3 & E3 & Hgone & Habs & Hs).
    rewrite E3. destruct Hs as (Ht3 & Hp3 & Hc3 & Hw3 & Hu3).
    destruct Hinv2 as (_ & _ & Hw2).
    assert (writes w3 = before ++ map batch_location files) as Hw by congruence.
    rewrite Hc1 in E2, Ht2. rewrite Hc1, Ht1, Hp1 in *.
    eexists _, w3. split; [reflexivity|]. split; [exact Hgone|].
    split.
    { rewrite Hw, skipn_app, Nat.sub_diag, skipn_all. cbn [app].
      rewrite Hu2, Hr1 in Habs. exact Habs. }
    right. split; [reflexivity|]. split; [congruence|]. split; [exact Hw|]. congruence.
Qed.

Lemma mkdir_one_cases p w :
  (is_file (fs w !! p) = true /\ exists k m, mkdir_one p w = (inl (PyError k m), w))
  \/ (is_file (fs w !! p) = false
      /\ exists w1, mkdir_one p w = (inr tt, w1)
                    /\ is_dir (fs w1 !! p) = true
                    /\ (forall k, is_file (fs w1 !! k) = is_file (fs w !! k))
                    /\ same_records w w1).
Proof.
  unfold mkdir_one. destruct (fs w !! p) as [[c|]|] eqn:E.
  - left. cbn. eauto.
  - right. split; [reflexivity|]. exists w. rewrite E. repeat split; auto.
  - right. split; [reflexivity|]. eexists. split; [reflexivity|].
    cbn [set_fs fs]. split; [rewrite lookup_insert_eq; reflexivity|].
    split; [|apply same_records_set_fs].
    intros k. destruct (decide (p = k)) as [<-|Hne].
    + rewrite lookup_insert_eq, E. reflexivity.
    + rewrite lookup_insert_ne by exact Hne. reflexivity.
Qed.

Lemma mkdir_parents_batch w :
  exists r w1,
    mkdir_parents batch_temp_dir w = (r, w1)
    /\ same_records w w1
    /\ match r with
       | inr _ => is_dir (fs w1 !! batch_dir) = true
       | inl e => (exists k m, e = PyError k m)
                  /\ (is_file (fs w !! "uploads") = true
                      \/ is_file (fs w !! "uploads/temp") = true)
       end.
Proof.
  change (mkdir_parents batch_temp_dir)
    with (bind (mkdir_one "uploads") (fun _ => bind (mkdir_one "uploads/temp") (fun _ => ret tt))).
  unfold bind.
  destruct (mkdir_one_cases "uploads" w) as [[Hf (k & m & E)]|[Hf (w1 & E & Hd & Hk & Hs)]];
    rewrite E.
  - exists (inl (PyError k m)), w. split; [reflexivity|]. split; [apply same_records_refl|].
    split; eauto.
  - destruct (mkdir_one_cases "uploads/temp" w1)
      as [[Hf2 (k & m & E2)]|[Hf2 (w2 & E2 & Hd2 & Hk2 & Hs2)]]; rewrite E2.
    + exists (inl (PyError k m)), w1. split; [reflexivity|]. split; [exact Hs|].
      split; [eauto|]. right. rewrite <- Hk. exact Hf2.
    + exists (inr tt), w2. split; [reflexivity|].
      split; [eapply same_records_trans; eauto|exact Hd2].
Qed.

Lemma get_db_inv {A} (m : M A) w r w' :
  get_db m w = (r, w') ->
  exists w1, m (session_start w) = (r, w1) /\ w' = session_start w1.
Proof.
  unfold get_db. fold (session_start w). destruct (m _) as [r1 w1].
  intros [= <- <-]. eauto.
Qed.

(** Every run of the batch upload is of one of three kinds: it fails before
    anything is staged; it fails while staging; or it stages every file and
    runs both copies, the second of which decides the outcome. In the last
    two the staging directory and every staged file are gone at the end. *)
Lemma batch_upload_run env files folder u w :
  let out := upload_multiple_files env files folder u w in
  let process := rclone env (S (List.length (calls w))) (batch_argv folder) in
  ((exists d, out.1 = inl (HTTPException 500 d))
   /\ calls out.2 = calls w /\ writes out.2 = writes w /\ table out.2 = table w
   /\ (path_accepted env folder = false
       \/ is_file (fs w !! "uploads") = true
       \/ is_file (fs w !! "uploads/temp") = true))
  \/ (path_accepted env folder = true
      /\ fs out.2 !! batch_dir = None
      /\ Forall (fun k => fs out.2 !! k = None) (new_writes w out.2)
      /\ ((exists d, out.1 = inl (HTTPException 500 d))
          /\ calls out.2 = calls w /\ table out.2 = table w
          /\ (exists n, writes out.2 = writes w ++ map batch_location (firstn n files))
          \/ out.1 = (if returncode process =? 0
                      then inr (JSONUploadMany (map uf_filename files) folder "success"
                                  ("Files uploaded successfully to " +:+ folder))
                      else inl (HTTPException 500
                                  ("500: Failed to upload to cloud storage: "
                                   +:+ stderr process)))
             /\ calls out.2 = calls w ++ [batch_argv folder; batch_argv folder]
             /\ writes out.2 = writes w ++ map batch_location files
             /\ table out.2
                = if returncode process =? 0
                  then table w ++ map (batch_record folder u) files
                  else table w)).
Proof.
  cbv zeta.
  destruct (upload_multiple_files env files folder u w) as [res wf] eqn:Eout.
  cbn [fst snd]. unfold upload_multiple_files in Eout.
  apply get_db_inv in Eout as (wl & Eout & ->).
  set (w0 := session_start w) in *.
  destruct (path_accepted env folder) eqn:Hacc.
  2:{ left. rewrite except_check_not_accepted in Eout by exact Hacc.
      injection Eout as <- <-. split; [eauto|]. repeat split; auto. }
  unfold except_Exception in Eout. rewrite (bind_check_accepted _ _ _ _ _ Hacc) in Eout.
  unfold bind at 1 in Eout. unfold set_uploaded_files at 1 in Eout.
  set (wa := mkWorld _ _ _ _ _ []) in Eout.
  unfold bind at 1 in Eout.
  destruct (mkdir_parents_batch wa) as (r & wb & E & Hs & Hr). rewrite E in Eout.
  destruct Hs as (Ht & Hp & Hc & Hw & Hu).
  destruct r as [e|[]].
  - left. destruct Hr as [(k & m & ->) Hfile]. injection Eout as <- <-.
    cbn [session_start calls writes table].
    split; [eauto|]. split; [exact Hc|]. split; [exact Hw|]. split; [exact Ht|].
    right. exact Hfile.
  - right. split; [reflexivity|].
    assert (staging_inv (writes w) wb) as Hinv.
    { split; [exact Hr|]. rewrite Hu, Hw. cbn. rewrite app_nil_r.
      split; [constructor|reflexivity]. }
    destruct (batch_protected_run (writes w) env files folder u wb Hinv Hu)
      as (r & w' & E' & Hgone & Habs & Hcase).
    unfold bind at 1 in Eout. rewrite E' in Eout.
    rewrite Hc, Ht, Hp in Hcase. cbn [wa calls table pending w0 session_start] in Hcase.
    cbn [app] in Hcase. unfold new_writes.
    destruct Hcase as [((k & m & ->) & Hc' & Ht' & Hn)|(-> & Hc' & Hw' & Ht')].
    + injection Eout as <- <-. cbn [session_start fs calls writes table].
      split; [exact Hgone|]. split; [exact Habs|]. left. split; [eauto|]. auto.
    + destruct (returncode _ =? 0); cbn [ret] in Eout; injection Eout as <- <-;
        cbn [session_start fs calls writes table];
        (split; [exact Hgone|]); (split; [exact Habs|]); right; auto.
Qed.

(** ** Upload staging *)

Lemma new_writes_app w l : skipn (List.length (writes w)) (writes w ++ l) = l.
Proof. rewrite skipn_app, Nat.sub_diag, skipn_all. reflexivity. Qed.




(** ** Upload records *)



(** ** Where the batch upload stages *)







(** ** Failures of the external tool *)


















(** * Further properties of the code *)

(** ** What the opening check rejects *)

Lemma contains_dd_cons c s :
  Str.contains ".." (String c s)
  = (Ascii.eqb c "." && Str.startswith "." s) || Str.contains ".." s.
Proof.
  cbn [Str.contains Str.startswith]. rewrite (Ascii.eqb_sym "." c). reflexivity.
Qed.

Lemma startswith_dot_app_sep a b :
  Str.startswith "." (a +:+ String "/" b) = Str.startswith "." a.
Proof. destruct a as [|c a]; reflexivity. Qed.

Lemma contains_dd_app_sep a b :
  Str.contains ".." (a +:+ String "/" b) = Str.contains ".." a || Str.contains ".." b.
Proof.
  induction a as [|c a IH].
  - change (EmptyString +:+ String "/" b) with (String "/" b).
    rewrite contains_dd_cons. reflexivity.
  - change (String c a +:+ String "/" b) with (String c (a +:+ String "/" b)).
    rewrite !contains_dd_cons, IH, startswith_dot_app_sep, orb_assoc. reflexivity.
Qed.

Lemma contains_dd_join ps :
  Str.contains ".." (Str.join "/" ps) = existsb (Str.contains "..") ps.
Proof.
  induction ps as [|p ps IH]; [reflexivity|].
  destruct ps as [|q ps].
  - cbn [Str.join existsb]. rewrite orb_false_r. reflexivity.
  - change (Str.join "/" (p :: q :: ps)) with (p +:+ String "/" (Str.join "/" (q :: ps))).
    rewrite contains_dd_app_sep, IH. reflexivity.
Qed.

Lemma contains_dd_resolved env p :
  Str.contains ".." (path_str (resolved env p))
  = existsb (Str.contains "..") (parts (resolved env p)).
Proof.
  unfold resolved, path_str. cbn [root parts].
  change ("/" +:+ ?s) with (String "/" s).
  rewrite contains_dd_cons, contains_dd_join. reflexivity.
Qed.

Lemma path_accepted_iff env path :
  path_accepted env path = true
  <-> has_nul (path_str (Path path)) = false
      /\ Str.contains ".." (path_str (resolved env (Path path))) = false.
Proof.
  unfold path_accepted, check_path, resolve, bind.
  destruct (has_nul _); cbn [raise ret]; [intuition discriminate|].
  destruct (Str.contains ".." _); cbn [raise ret]; intuition discriminate.
Qed.

(** The check rejects a path exactly when, once resolved, one of its names
    holds two dots in a row inside a longer name, such as [notes..txt]: a
    part that is [".."] itself never survives resolving. *)
Theorem rejected_iff_dotted_name env path :
  Forall (fun x => x <> "..") (cwd env) ->
  path_rejected env path = true
  <-> has_nul (path_str (Path path)) = false
      /\ exists part, In part (parts (resolved env (Path path)))
                      /\ part <> ".." /\ Str.contains ".." part = true.
Proof.
  intros Hcwd. rewrite path_rejected_iff, contains_dd_resolved.
  pose proof (resolved_has_no_parent_part env (Path path) Hcwd) as Hno.
  rewrite Forall_forall in Hno.
  split; intros [Hn H]; (split; [exact Hn|]).
  - apply existsb_exists in H as (part & Hin & Hc). exists part.
    split; [exact Hin|]. split; [|exact Hc]. apply Hno, list_elem_of_In, Hin.
  - destruct H as (part & Hin & _ & Hc). apply existsb_exists. eauto.
Qed.

Lemma rejected_iff_dotted_name_witness :
  path_rejected env_ok "docs/notes..txt" = true
  /\ path_rejected env_ok "docs/../notes.txt" = false.
Proof.
  split.
  - apply (rejected_iff_dotted_name env_ok "docs/notes..txt").
    + repeat constructor; discriminate.
    + split; [reflexivity|]. exists "notes..txt".
      split; [vm_compute; auto|]. split; [discriminate|reflexivity].
  - destruct (path_rejected env_ok "docs/../notes.txt") eqn:E; [|reflexivity].
    apply (rejected_iff_dotted_name env_ok "docs/../notes.txt") in E
      as (_ & part & Hin & _ & Hc).
    + vm_compute in Hin. destruct Hin as [<-|[<-|[<-|[]]]]; discriminate.
    + repeat constructor; discriminate.
Defined.

Lemma fold_realpath_Forall (P : string -> Prop) names : forall stack,
  Forall P stack ->
  Forall (fun n => n = ".." \/ P n) names ->
  Forall P (fold_left realpath_step names stack).
Proof.
  induction names as [|n names IH]; intros stack Hs Hn; [exact Hs|].
  inversion Hn as [|? ? H1 H2]; subst. cbn [fold_left]. apply IH; [|exact H2].
  unfold realpath_step. destruct (String.eqb_spec n "..") as [->|Hne].
  - apply removelast_Forall, Hs.
  - apply Forall_app. split; [exact Hs|]. constructor; [|constructor].
    destruct H1; [contradiction|assumption].
Qed.

(** Every path built from [".."] parts and from names without two dots in a
    row passes the check, wherever it leads, and the listing endpoint then
    spawns rclone on the path as supplied. *)
Theorem traversal_only_path_accepted env path w :
  Forall (fun x => Str.contains ".." x = false) (cwd env) ->
  has_nul (path_str (Path path)) = false ->
  Forall (fun x => x = ".." \/ Str.contains ".." x = false) (parts (Path path)) ->
  path_accepted env path = true
  /\ new_calls w (list_files env path w).2 = [list_argv path].
Proof.
  intros Hcwd Hnul Hparts.
  assert (path_accepted env path = true) as Hacc.
  { apply path_accepted_iff. split; [exact Hnul|].
    rewrite contains_dd_resolved. unfold resolved. cbn [parts].
    apply not_true_is_false. intros H. apply existsb_exists in H as (part & Hin & Hc).
    assert (Forall (fun x => Str.contains ".." x = false)
              (fold_left realpath_step (parts (Path path))
                 (match root (Path path) with EmptyString => cwd env | _ => [] end))) as HF.
    { apply fold_realpath_Forall; [|exact Hparts].
      destruct (root (Path path)); [exact Hcwd|constructor]. }
    rewrite Forall_forall in HF. apply list_elem_of_In in Hin.
    rewrite (HF _ Hin) in Hc. discriminate. }
  split; [exact Hacc|].
  rewrite (list_files_eq env path w Hacc). cbn [snd]. unfold new_calls.
  rewrite calls_after_spawn. apply new_calls_app.
Qed.

Lemma traversal_only_path_accepted_witness :
  has_traversal_segment "../../etc/passwd" = true
  /\ path_accepted env_ok "../../etc/passwd" = true
  /\ new_calls world_started (list_files env_ok "../../etc/passwd" world_started).2
     = [["rclone"; "lsjson"; "GCS:media_mover_test/../../etc/passwd";
         "--gcs-bucket-policy-only"; "--no-traverse"]].
Proof.
  split; [reflexivity|].
  apply (traversal_only_path_accepted env_ok "../../etc/passwd" world_started).
  - repeat constructor.
  - reflexivity.
  - vm_compute.
    repeat (apply Forall_cons; split; [first [left; reflexivity|right; reflexivity]|]).
    apply Forall_nil. exact I.
Defined.

(** ** The status of every answer *)



(** ** Which requests change the upload table *)

Lemma keeps_ret {A} (a : A) : keeps_table (ret a).
Proof. intros w. reflexivity. Qed.

Lemma keeps_raise {A} e : keeps_table (@raise A e).
Proof. intros w. reflexivity. Qed.

Lemma keeps_bind {A B} (m : M A) (k : A -> M B) :
  keeps_table m -> (forall a, keeps_table (k a)) -> keeps_table (bind m k).
Proof.
  intros Hm Hk w. unfold bind. specialize (Hm w).
  destruct (m w) as [[e|a] w1]; cbn [snd] in *; [exact Hm|].
  rewrite (Hk a w1). exact Hm.
Qed.

Lemma keeps_try_finally {A} (body : M A) cleanup :
  keeps_table body -> keeps_table cleanup -> keeps_table (try_finally body cleanup).
Proof.
  intros Hb Hc w. unfold try_finally. specialize (Hb w).
  destruct (body w) as [r w1]. specialize (Hc w1).
  destruct (cleanup w1) as [[e|u] w2]; cbn [snd] in *; congruence.
Qed.

Lemma keeps_except {A} (body : M A) :
  keeps_table body -> keeps_table (except_Exception body).
Proof.
  intros Hb w. unfold except_Exception. specialize (Hb w).
  destruct (body w) as [[e|a] w1]; exact Hb.
Qed.

Lemma keeps_if {A} (b : bool) (m1 m2 : M A) :
  keeps_table m1 -> keeps_table m2 -> keeps_table (if b then m1 else m2).
Proof. destruct b; auto. Qed.

Lemma keeps_spawn env argv : keeps_table (spawn env argv).
Proof. intros w. reflexivity. Qed.

Lemma keeps_path_exists p : keeps_table (path_exists p).
Proof. intros w. reflexivity. Qed.

Lemma keeps_write_file p body : keeps_table (write_file p body).
Proof. intros w. unfold write_file. destruct (fs w !! p) as [[c|]|]; reflexivity. Qed.

Lemma keeps_unlink p : keeps_table (unlink p).
Proof. intros w. unfold unlink. destruct (fs w !! p) as [[c|]|]; reflexivity. Qed.

Lemma keeps_mkdir_one p : keeps_table (mkdir_one p).
Proof. intros w. unfold mkdir_one. destruct (fs w !! p) as [[c|]|]; reflexivity. Qed.

Lemma keeps_any_iterdir d : keeps_table (any_iterdir d).
Proof. intros w. unfold any_iterdir. destruct (fs w !! d) as [[c|]|]; reflexivity. Qed.

Lemma keeps_rmdir d : keeps_table (rmdir d).
Proof. intros w. unfold rmdir. destruct (fs w !! d) as [[c|]|]; reflexivity. Qed.

Lemma keeps_resolve env p : keeps_table (resolve env p).
Proof. unfold resolve. apply keeps_if; [apply keeps_raise|apply keeps_ret]. Qed.

Lemma keeps_check_path env path d : keeps_table (check_path env path d).
Proof.
  unfold check_path. apply keeps_bind; [apply keeps_resolve|]. intros a.
  apply keeps_if; [apply keeps_raise|apply keeps_ret].
Qed.

Create HintDb keeps.
#[local] Hint Resolve keeps_ret keeps_raise keeps_spawn keeps_path_exists keeps_write_file
  keeps_unlink keeps_mkdir_one keeps_any_iterdir keeps_rmdir keeps_resolve keeps_check_path
  keeps_except keeps_try_finally keeps_bind keeps_if : keeps.

Lemma keeps_list_files env path : keeps_table (list_files env path).
Proof.
  unfold list_files. apply keeps_except, keeps_bind; [auto with keeps|intros _].
  apply keeps_bind; [auto with keeps|intros process].
  apply keeps_if; [auto with keeps|]. destruct (json_loads env _); auto with keeps.
Qed.

Lemma keeps_download_file env path : keeps_table (download_file env path).
Proof.
  unfold download_file, download_try, download_finally, mkdir. auto 12 with keeps.
Qed.

Lemma keeps_delete_file env path : keeps_table (delete_file env path).
Proof. unfold delete_file. auto 12 with keeps. Qed.

Lemma keeps_create_directory env path : keeps_table (create_directory env path).
Proof. unfold create_directory. auto 12 with keeps. Qed.

Lemma keeps_move_file env s d : keeps_table (move_file env s d).
Proof. unfold move_file. auto 12 with keeps. Qed.

Lemma keeps_upload_file env file : keeps_table (upload_file env file).
Proof. unfold upload_file, upload_try, upload_finally. auto 12 with keeps. Qed.

(** The table a request leaves: the one it found, or that one with the rows
    of a batch upload that succeeded. *)
Lemma handle_table_cases env req w :
  table (handle env req w).2 = table w
  \/ exists files folder u r,
       req = PostUploadMultiple files folder u
       /\ (handle env req w).1 = inr r
       /\ table (handle env req w).2 = table w ++ map (batch_record folder u) files.
Proof.
  destruct req as [p|p|p|p|s d|f|fs folder u]; cbn [handle].
  - left. apply keeps_list_files.
  - left. apply keeps_download_file.
  - left. apply keeps_delete_file.
  - left. apply keeps_create_directory.
  - left. apply keeps_move_file.
  - left. apply keeps_upload_file.
  - destruct (batch_upload_run env fs folder u w)
      as [(_ & _ & _ & Ht & _)|(_ & _ & _ & [(_ & _ & Ht & _)|(Hr & _ & _ & Ht)])];
      [left; exact Ht|left; exact Ht|].
    destruct (returncode _ =? 0); [|left; exact Ht].
    right. exists fs, folder, u. eexists. split; [reflexivity|].
    split; [exact Hr|exact Ht].
Qed.

(** Upload rows are written by one endpoint in one case only. The table a
    request leaves is the table it found, unless the request is a batch
    upload that succeeded, which appends one row per file, each with status
    ["success"]; the single upload never records anything. *)
Theorem table_changes_only_on_batch_success env req w :
  table (handle env req w).2 = table w
  \/ exists files folder u r rows,
       req = PostUploadMultiple files folder u
       /\ (handle env req w).1 = inr r
       /\ table (handle env req w).2 = table w ++ rows
       /\ map fu_filename rows = map uf_filename files
       /\ Forall (fun row => fu_status row = "success"
                             /\ fu_uploaded_by row = user_id u) rows.
Proof.
  destruct (handle_table_cases env req w) as [H|(files & folder & u & r & Hreq & Hr & Ht)];
    [left; exact H|right].
  exists files, folder, u, r, (map (batch_record folder u) files).
  split; [exact Hreq|]. split; [exact Hr|]. split; [exact Ht|]. split.
  - rewrite map_map. reflexivity.
  - apply Forall_map, Forall_forall. intros f _. split; reflexivity.
Qed.

(** ** The dashboard after a request *)

Lemma filter_batch_records tag folder u files :
  tag <> "success" ->
  List.filter (fun row => String.eqb (fu_status row) tag) (map (batch_record folder u) files)
  = [].
Proof.
  intros Hne. induction files as [|f files IH]; [reflexivity|].
  cbn [map List.filter]. change (fu_status (batch_record folder u f)) with "success".
  destruct (String.eqb_spec "success" tag) as [E|_]; [congruence|exact IH].
Qed.

Lemma filter_success_batch_records folder u files :
  List.filter (fun row => String.eqb (fu_status row) "success")
    (map (batch_record folder u) files)
  = map (batch_record folder u) files.
Proof.
  induction files as [|f files IH]; [reflexivity|].
  cbn [map List.filter]. change (fu_status (batch_record folder u f)) with "success".
  cbn [String.eqb]. rewrite IH. reflexivity.
Qed.

(** No request adds a failed upload to the dashboard. The rows
    [get_failed_uploads] returns are the same before and after any request,
    also after one that failed, and the number of rows that are not
    successes, which lowers the success rate of [get_dashboard_stats],
    never changes. *)
Theorem failed_uploads_never_recorded env req w :
  let after := table (handle env req w).2 in
  get_failed_uploads after = get_failed_uploads (table w)
  /\ (total_uploads after - successful_uploads after
      = total_uploads (table w) - successful_uploads (table w))%nat.
Proof.
  cbv zeta.
  destruct (handle_table_cases env req w)
    as [->|(files & folder & u & r & _ & _ & ->)]; [split; reflexivity|].
  unfold get_failed_uploads, total_uploads, successful_uploads.
  rewrite !List.filter_app, filter_batch_records by discriminate.
  rewrite filter_success_batch_records, app_nil_r, !length_app.
  split; [reflexivity|]. lia.
Qed.

(** ** The single upload *)



(** The single upload takes the file name as it comes. An absolute name is
    its own staging path, and whatever regular file stood at the staging
    path before the request is overwritten and then removed by the cleanup:
    after the request it is gone, whether the copy succeeded or not. *)
Theorem single_upload_removes_existing_file env file w old :
  fs w !! upload_location file = Some (File old) ->
  fs (upload_file env file w).2 !! upload_location file = None
  /\ (Str.startswith "/" (uf_filename file) = true ->
      upload_location file = uf_filename file).
Proof.
  intros Hold. split.
  - destruct (upload_file_run env file w) as [[Hd _]|[_ (w' & E & _ & _ & _ & Hgone)]].
    + rewrite Hold in Hd. discriminate.
    + rewrite E. exact Hgone.
  - intros Habs. unfold upload_location, os_path_join. rewrite Habs. reflexivity.
Qed.

Lemma single_upload_removes_existing_file_witness :
  fs world_with_hosts !! "/etc/hosts" = Some (File "127.0.0.1 localhost")
  /\ fs (upload_file env_failing (sample_file "/etc/hosts") world_with_hosts).2
       !! "/etc/hosts" = None.
Proof.
  split; [reflexivity|].
  destruct (single_upload_removes_existing_file env_failing (sample_file "/etc/hosts")
              world_with_hosts "127.0.0.1 localhost" eq_refl) as [H _].
  exact H.
Defined.

(** ** The batch upload's answer and its staging directory *)

(** The test of the batch upload, for every list of files: whenever the
    request got as far as the copy and the second copy exits with status
    zero, the answer is 200 and lists the names of all files in order,
    with the folder as supplied. *)
Theorem batch_upload_success env files folder u w :
  new_calls w (upload_multiple_files env files folder u w).2 <> [] ->
  returncode (rclone env (S (List.length (calls w))) (batch_argv folder)) = 0 ->
  serve env (PostUploadMultiple files folder u) w
  = mkHttp 200 (JSONBody (JSONUploadMany (map uf_filename files) folder "success"
                            ("Files uploaded successfully to " +:+ folder)))
  /\ List.length (map uf_filename files) = List.length files.
Proof.
  intros Hcalls Hrc. split; [|apply length_map].
  unfold serve. cbn [handle].
  destruct (batch_upload_run env files folder u w)
    as [(_ & Hc & _)|(_ & _ & _ & [(_ & Hc & _)|(Hr & _)])].
  - exfalso. apply Hcalls. unfold new_calls. rewrite Hc. apply skipn_all.
  - exfalso. apply Hcalls. unfold new_calls. rewrite Hc. apply skipn_all.
  - rewrite Hrc in Hr. cbn [Z.eqb] in Hr.
    destruct (upload_multiple_files env files folder u w) as [o wf]. cbn [fst] in Hr.
    subst o. reflexivity.
Qed.

Lemma batch_upload_success_witness :
  let files := [sample_file "test0.txt"; sample_file "test1.txt"; sample_file "test2.txt"] in
  serve env_ok (PostUploadMultiple files "/" sample_user) world_started
  = mkHttp 200 (JSONBody (JSONUploadMany (map uf_filename files) "/" "success"
                            ("Files uploaded successfully to " +:+ "/")))
  /\ List.length (map uf_filename files) = List.length files.
Proof.
  cbv zeta.
  apply (batch_upload_success env_ok
           [sample_file "test0.txt"; sample_file "test1.txt"; sample_file "test2.txt"]
           "/" sample_user world_started).
  - vm_compute. discriminate.
  - reflexivity.
Defined.

Lemma try_finally_world {A} (body : M A) cleanup w :
  (try_finally body cleanup w).2 = (cleanup (body w).2).2.
Proof.
  unfold try_finally. destruct (body w) as [r w1]. cbn [snd].
  destruct (cleanup w1) as [[e|x] w2]; reflexivity.
Qed.

Lemma batch_try_inv before env files folder u w :
  staging_inv before w -> staging_inv before (batch_try env files folder u w).2.
Proof.
  intros Hinv. unfold batch_try, bind.
  destruct (batch_stage_run before files w Hinv) as (r1 & w1 & E1 & Hinv1 & _).
  rewrite E1. destruct r1 as [e|[]]; [exact Hinv1|].
  destruct (batch_copy_run before env files folder u w1 Hinv1) as (w2 & E2 & Hinv2 & _).
  rewrite E2. exact Hinv2.
Qed.

Lemma batch_finally_below before w k :
  staging_inv before w ->
  below batch_dir k = true ->
  fs (batch_finally batch_temp_dir w).2 !! k = None.
Proof.
  intros (Hdir & Hst & _) Hk.
  destruct (unlink_loop _ w Hst) as (w1 & E1 & _ & Hd & _).
  specialize (Hd batch_dir). rewrite Hdir in Hd.
  unfold batch_finally, bind, get_uploaded_files. rewrite E1, path_exists_run.
  fold batch_dir.
  destruct (fs w1 !! batch_dir) as [[c|]|] eqn:E; try discriminate.
  rewrite bool_decide_true by eauto.
  unfold rmtree. rewrite E. cbn [snd set_fs fs].
  apply map_lookup_filter_None. right. intros x _. cbn [fst]. rewrite Hk. discriminate.
Qed.

(** The staging directory is shared and the cleanup takes all of it: once a
    batch upload has begun staging, nothing is left below [uploads/temp]
    when it completes, also what the request did not stage itself (the
    files another upload staged there). *)
Theorem batch_upload_empties_staging_directory env files folder u w k :
  path_accepted env folder = true ->
  is_file (fs w !! "uploads") = false ->
  is_file (fs w !! "uploads/temp") = false ->
  below "uploads/temp" k = true ->
  fs (upload_multiple_files env files folder u w).2 !! k = None.
Proof.
  intros Hacc Hup Htemp Hk.
  destruct (upload_multiple_files env files folder u w) as [res wf] eqn:Eout.
  cbn [snd]. unfold upload_multiple_files in Eout.
  apply get_db_inv in Eout as (wl & Eout & ->). cbn [session_start fs].
  unfold except_Exception in Eout. rewrite (bind_check_accepted _ _ _ _ _ Hacc) in Eout.
  unfold bind at 1 in Eout. unfold set_uploaded_files at 1 in Eout.
  set (wa := mkWorld _ _ _ _ _ []) in Eout.
  unfold bind at 1 in Eout.
  destruct (mkdir_parents_batch wa) as (r & wb & E & Hs & Hr). rewrite E in Eout.
  destruct Hs as (Ht & Hp & Hc & Hw & Hu).
  destruct r as [e|[]].
  { destruct Hr as [_ [H|H]]; cbn [wa fs session_start] in H; congruence. }
  assert (staging_inv (writes wa) wb) as Hinv.
  { split; [exact Hr|]. rewrite Hu, Hw. cbn [wa uploaded_files]. rewrite app_nil_r.
    split; [constructor|reflexivity]. }
  pose proof (batch_finally_below _ _ k
                (batch_try_inv _ env files folder u wb Hinv) Hk) as Hgone.
  rewrite <- try_finally_world in Hgone.
  unfold bind at 1 in Eout.
  destruct (try_finally _ _ wb) as [[e|x] w3]; cbn [snd] in Hgone;
    injection Eout as _ <-; exact Hgone.
Qed.

Lemma batch_upload_empties_staging_directory_witness :
  fs world_with_staged !! "uploads/temp/other.bin" = Some (File "left by another upload")
  /\ fs (upload_multiple_files env_ok [sample_file "a.txt"] "/docs" sample_user
           world_with_staged).2 !! "uploads/temp/other.bin" = None.
Proof.
  split; [reflexivity|].
  apply (batch_upload_empties_staging_directory env_ok [sample_file "a.txt"] "/docs"
           sample_user world_with_staged "uploads/temp/other.bin"); reflexivity.
Defined.

(** ** Creating a directory *)

(** The directory marker is never cleaned up. A mkdir request whose path
    passes the check writes the empty file [/tmp/.keep] (the same for every
    request), spawns one [copyto] of it, and leaves it in place whatever the
    copy's outcome, which alone decides the answer. *)
Theorem create_directory_leaves_marker env path w :
  path_accepted env path = true ->
  is_dir (fs w !! "/tmp/.keep") = false ->
  let out := create_directory env path w in
  let process := rclone env (List.length (calls w)) (mkdir_argv path) in
  new_writes w out.2 = ["/tmp/.keep"]
  /\ new_calls w out.2 = [mkdir_argv path]
  /\ is_file (fs out.2 !! "/tmp/.keep") = true
  /\ out.1 = if returncode process =? 0
             then inr (JSONMessage "Directory created successfully")
             else inl (HTTPException 500
                         ("500: Failed to create directory: " +:+ stderr process)).
Proof.
  intros Hacc Hd. cbv zeta.
  set (wa := after_write "/tmp/.keep" EmptyString w).
  assert (create_directory env path w
          = (if returncode (rclone env (List.length (calls w)) (mkdir_argv path)) =? 0
             then inr (JSONMessage "Directory created successfully")
             else inl (HTTPException 500
                         ("500: Failed to create directory: "
                          +:+ stderr (rclone env (List.length (calls w)) (mkdir_argv path)))),
             after_spawn env (mkdir_argv path) wa)) as ->.
  { unfold create_directory, except_Exception.
    rewrite (bind_check_accepted _ _ _ _ _ Hacc). unfold bind at 1.
    destruct (write_file_cases "/tmp/.keep" EmptyString w) as [[Hd' _]|[_ E]];
      [congruence|].
    rewrite E, bind_spawn. change (calls (after_write _ _ w)) with (calls w).
    destruct (returncode _ =? 0); reflexivity. }
  cbn [fst snd].
  split; [unfold new_writes; rewrite writes_after_spawn; apply (new_writes_app w)|].
  split; [unfold new_calls; rewrite calls_after_spawn; apply (new_calls_app w)|].
  split; [|reflexivity].
  apply is_file_after_spawn. unfold wa, after_write. cbn [fs].
  rewrite lookup_insert_eq. reflexivity.
Qed.

Lemma create_directory_leaves_marker_witness :
  let out := create_directory env_ok "/reports" world_started in
  new_writes world_started out.2 = ["/tmp/.keep"]
  /\ new_calls world_started out.2
     = [["rclone"; "copyto"; "/tmp/.keep"; "GCS:media_mover_test/reports/.keep";
         "--gcs-bucket-policy-only"; "--no-traverse"]]
  /\ is_file (fs out.2 !! "/tmp/.keep") = true
  /\ out.1 = inr (JSONMessage "Directory created successfully").
Proof.
  exact (create_directory_leaves_marker env_ok "/reports" world_started eq_refl eq_refl).
Defined.

(** ** The remote target of listing and deleting *)

Lemma halve_cons_other c s :
  Ascii.eqb c "/" = false -> halve (String c s) = String c (halve s).
Proof. intros H. destruct s as [|d s]; [reflexivity|]. rewrite halve_cons2, H. reflexivity. Qed.

Lemma contains_slash_cons c s :
  Str.contains "/" (String c s) = Ascii.eqb c "/" || Str.contains "/" s.
Proof.
  cbn [Str.contains Str.startswith]. rewrite (Ascii.eqb_sym "/" c), andb_true_r. reflexivity.
Qed.

Lemma halve_app_plain a s :
  Str.contains "/" a = false -> halve (a +:+ s) = a +:+ halve s.
Proof.
  induction a as [|c a IH]; intros H; [reflexivity|].
  rewrite contains_slash_cons in H. apply orb_false_iff in H as [Hc Ha].
  change (String c a +:+ s) with (String c (a +:+ s)).
  rewrite (halve_cons_other _ _ Hc), (IH Ha). reflexivity.
Qed.

Lemma contains_dslash_app_plain a s :
  Str.contains "/" a = false -> Str.contains "//" (a +:+ s) = Str.contains "//" s.
Proof.
  induction a as [|c a IH]; intros H; [reflexivity|].
  rewrite contains_slash_cons in H. apply orb_false_iff in H as [Hc Ha].
  change (String c a +:+ s) with (String c (a +:+ s)).
  rewrite contains_dslash_cons, Hc, (IH Ha). reflexivity.
Qed.

Lemma halve_id s : Str.contains "//" s = false -> halve s = s.
Proof.
  induction s as [|c|c d s IH1 IH2] using string_two_step; intros H;
    [reflexivity|reflexivity|].
  rewrite contains_dslash_cons in H. apply orb_false_iff in H as [Hc Hs].
  rewrite starts_with_slash_cons in Hc.
  rewrite halve_cons2, Hc, (IH2 Hs). reflexivity.
Qed.

(** For a path without doubled separators, the remote location that the
    listing and the delete endpoints hand to rclone is the remote prefix
    joined to the path by exactly one separator, whether or not the path
    brings its own leading one; it holds no doubled separator. *)
Theorem remote_target_single_separator path :
  Str.contains "//" path = false ->
  delete_target path
  = (if Str.startswith "/" path then RCLONE_REMOTE +:+ path
     else RCLONE_REMOTE +:+ "/" +:+ path)
  /\ Str.contains "//" (delete_target path) = false
  /\ list_argv path
     = ["rclone"; "lsjson"; delete_target path; "--gcs-bucket-policy-only"; "--no-traverse"].
Proof.
  intros H.
  assert (delete_target path
          = if Str.startswith "/" path then RCLONE_REMOTE +:+ path
            else RCLONE_REMOTE +:+ "/" +:+ path) as E.
  { unfold delete_target. rewrite replace_is_halve.
    rewrite (halve_app_plain RCLONE_REMOTE) by reflexivity.
    change ("/" +:+ path) with (String "/" path).
    destruct path as [|c p]; [reflexivity|].
    change (Str.startswith "/" (String c p)) with (starts_with_slash (String c p)).
    rewrite starts_with_slash_cons, halve_cons2, Ascii.eqb_refl. cbn [andb].
    rewrite contains_dslash_cons in H. apply orb_false_iff in H as [_ Hp].
    destruct (Ascii.eqb c "/") eqn:Hs.
    - apply Ascii.eqb_eq in Hs. subst c. rewrite (halve_id _ Hp). reflexivity.
    - rewrite (halve_cons_other _ _ Hs), (halve_id _ Hp). reflexivity. }
  split; [exact E|]. split; [|unfold list_argv, delete_target; reflexivity].
  rewrite E. change (Str.startswith "/" path) with (starts_with_slash path).
  destruct (starts_with_slash path) eqn:Hs.
  - rewrite (contains_dslash_app_plain RCLONE_REMOTE) by reflexivity. exact H.
  - rewrite (contains_dslash_app_plain RCLONE_REMOTE) by reflexivity.
    change ("/" +:+ path) with (String "/" path).
    rewrite contains_dslash_cons, H, Hs, andb_false_r. reflexivity.
Qed.

Lemma remote_target_single_separator_witness :
  delete_target "/reports/2024" = "GCS:media_mover_test/reports/2024"
  /\ delete_target "reports/2024" = "GCS:media_mover_test/reports/2024".
Proof.
  split.
  - exact (proj1 (remote_target_single_separator "/reports/2024" eq_refl)).
  - exact (proj1 (remote_target_single_separator "reports/2024" eq_refl)).
Defined.

(** ** Accounts *)

Lemma find_user_None name users :
  find_user name users = None <-> ~ In name (map acc_username users).
Proof.
  unfold find_user. induction users as [|a users IH]; cbn [List.find map In].
  - tauto.
  - destruct (String.eqb_spec (acc_username a) name) as [E|E].
    + split; [discriminate|]. intros H. exfalso. apply H. left. exact E.
    + rewrite IH. tauto.
Qed.

Lemma find_user_Some name users a :
  find_user name users = Some a -> In a users /\ acc_username a = name.
Proof.
  unfold find_user. intros H. apply List.find_some in H as [Hin He].
  split; [exact Hin|]. apply String.eqb_eq, He.
Qed.

Lemma email_taken_false email users :
  existsb (fun a => String.eqb (acc_email a) email) users = false
  <-> ~ In email (map acc_email users).
Proof.
  induction users as [|a users IH]; cbn [existsb map In].
  - split; [tauto|reflexivity].
  - rewrite orb_false_iff, IH.
    destruct (String.eqb_spec (acc_email a) email) as [E|E].
    + split; [intros [H _]; discriminate|intros H; exfalso; apply H; left; exact E].
    + tauto.
Qed.

Lemma find_user_app name users more :
  find_user name (users ++ more)
  = match find_user name users with
    | Some a => Some a
    | None => find_user name more
    end.
Proof.
  unfold find_user. induction users as [|a users IH]; cbn [app List.find].
  - reflexivity.
  - destruct (String.eqb (acc_username a) name); [reflexivity|exact IH].
Qed.

Lemma NoDup_snoc {A} (l : list A) x : NoDup l -> ~ In x l -> NoDup (l ++ [x]).
Proof.
  intros Hl Hx. apply NoDup_app. split; [exact Hl|]. split.
  - intros y Hy Hy'. apply list_elem_of_In in Hy. apply list_elem_of_In in Hy'.
    destruct Hy' as [<-|[]]. contradiction.
  - apply NoDup_singleton.
Qed.

(** What [create_user_] does, case by case. *)
Lemma create_user_cases auth user users :
  (exists a, find_user (nu_username user) users = Some a
             /\ create_user_ auth user users
                = (inl (HTTPException 400 "Username already registered"), users))
  \/ (find_user (nu_username user) users = None
      /\ In (nu_email user) (map acc_email users)
      /\ exists k m, create_user_ auth user users = (inl (PyError k m), users))
  \/ (find_user (nu_username user) users = None
      /\ ~ In (nu_email user) (map acc_email users)
      /\ create_user_ auth user users
         = (inr (mkAccount (next_id users) (nu_username user) (nu_email user)
                   (get_password_hash auth (nu_password user)) (nu_is_admin user)),
            users ++ [mkAccount (next_id users) (nu_username user) (nu_email user)
                        (get_password_hash auth (nu_password user)) (nu_is_admin user)])).
Proof.
  unfold create_user_. destruct (find_user (nu_username user) users) as [a|] eqn:E.
  - left. eauto.
  - right. cbv zeta.
    destruct (existsb _ users) eqn:Ee.
    + left. split; [reflexivity|]. split; [|eauto].
      destruct (in_dec String.string_dec (nu_email user) (map acc_email users)) as [H|H];
        [exact H|]. apply email_taken_false in H. congruence.
    + right. split; [reflexivity|]. split; [|reflexivity].
      apply email_taken_false, Ee.
Qed.

(** [create_user_] keeps user names and emails unique. From a table in which
    both are, whatever the outcome, it leaves one in which both are; a name
    that is taken is refused with status 400 and the table untouched; a new
    account is appended as the last row, and what it stores of the password
    is its hash. *)
Theorem create_user_keeps_accounts_unique auth user users :
  NoDup (map acc_username users) ->
  NoDup (map acc_email users) ->
  let out := create_user_ auth user users in
  NoDup (map acc_username out.2)
  /\ NoDup (map acc_email out.2)
  /\ (In (nu_username user) (map acc_username users) ->
      out = (inl (HTTPException 400 "Username already registered"), users))
  /\ match out.1 with
     | inl _ => out.2 = users
     | inr a => out.2 = users ++ [a]
                /\ acc_username a = nu_username user
                /\ acc_email a = nu_email user
                /\ acc_hashed_password a = get_password_hash auth (nu_password user)
     end.
Proof.
  intros Hn He. cbv zeta.
  destruct (create_user_cases auth user users)
    as [(a & Hf & ->)|[(Hf & Hin & k & m & ->)|(Hf & Hnin & ->)]]; cbn [fst snd].
  - repeat split; auto.
  - split; [exact Hn|]. split; [exact He|]. split; [|reflexivity].
    intros H. apply find_user_None in Hf. contradiction.
  - rewrite !map_app. cbn [map acc_username acc_email].
    apply find_user_None in Hf.
    split; [apply NoDup_snoc; assumption|]. split; [apply NoDup_snoc; assumption|].
    split; [intros H; contradiction|]. repeat split.
Qed.

Lemma create_user_keeps_accounts_unique_witness :
  let first := (create_user_ sample_auth seed_user []).2 in
  let again := create_user_ sample_auth (mkNewUser "bedri-b" "other@example.org" "x" false)
                 first in
  NoDup (map acc_username again.2)
  /\ again = (inl (HTTPException 400 "Username already registered"), first).
Proof.
  cbv zeta.
  destruct (create_user_keeps_accounts_unique sample_auth
              (mkNewUser "bedri-b" "other@example.org" "x" false)
              (create_user_ sample_auth seed_user []).2) as (H1 & _ & H3 & _).
  - vm_compute. apply NoDup_cons. split; [apply not_elem_of_nil|apply NoDup_nil; exact I].
  - vm_compute. apply NoDup_cons. split; [apply not_elem_of_nil|apply NoDup_nil; exact I].
  - split; [exact H1|]. apply H3. left. reflexivity.
Defined.

(** ** Startup *)

(** Starting the application again does not add to the accounts. Whatever
    rclone answers at either start, the table a start leaves is the table
    it found or that table with the seed account appended, and a second
    start leaves it as the first one did. *)
Theorem startup_event_idempotent env env' auth w w' users :
  let users1 := (startup_event env auth w users).1.2 in
  let users2 := (startup_event env' auth w' users1).1.2 in
  users2 = users1
  /\ (users1 = users
      \/ exists a, users1 = users ++ [a]
                   /\ acc_username a = "bedri-b" /\ acc_is_admin a = true
                   /\ acc_hashed_password a = get_password_hash auth "12345678q").
Proof.
  cbv zeta.
  assert (forall env w users,
            (startup_event env auth w users).1.2 = (create_user_ auth seed_user users).2) as Hs.
  { intros e x us. unfold startup_event, spawn.
    destruct (create_user_ auth seed_user us) as [r us1]. reflexivity. }
  rewrite !Hs.
  destruct (create_user_cases auth seed_user users)
    as [(a & Hf & ->)|[(Hf & Hin & k & m & ->)|(Hf & Hnin & ->)]]; cbn [fst snd].
  - split; [|left; reflexivity]. unfold create_user_. rewrite Hf. reflexivity.
  - split; [|left; reflexivity]. unfold create_user_. rewrite Hf.
    cbv zeta. destruct (existsb _ users) eqn:Ee; [reflexivity|].
    apply email_taken_false in Ee. contradiction.
  - split; [|right; eexists; repeat split].
    unfold create_user_ at 1. rewrite find_user_app, Hf.
    unfold find_user. cbn [List.find acc_username].
    rewrite String.eqb_refl. reflexivity.
Qed.

(** ** The token exchange *)

(** Registering and then logging in. After [create_user_] has created an
    account, the token exchange with the same name and password yields a
    bearer token for that name, provided the password verifies against its
    own hash; with a password that does not verify, and with a name that
    has no account, it yields the same 401 with the [Bearer] challenge. *)
Theorem login_after_create_user auth user users a users1 :
  (forall p, verify_password auth p (get_password_hash auth p) = true) ->
  create_user_ auth user users = (inr a, users1) ->
  login auth (nu_username user) (nu_password user) users1
  = Token (create_access_token auth (nu_username user) (ACCESS_TOKEN_EXPIRE_MINUTES auth))
          "bearer"
  /\ (forall wrong,
        verify_password auth wrong (get_password_hash auth (nu_password user)) = false ->
        login auth (nu_username user) wrong users1
        = Unauthorized 401 "Incorrect username or password" [("WWW-Authenticate", "Bearer")])
  /\ (forall name password,
        ~ In name (map acc_username users1) ->
        login auth name password users1
        = Unauthorized 401 "Incorrect username or password" [("WWW-Authenticate", "Bearer")]).
Proof.
  intros Hverify Hcreate.
  destruct (create_user_cases auth user users)
    as [(b & Hf & E)|[(Hf & Hin & k & m & E)|(Hf & Hnin & E)]];
    rewrite E in Hcreate; try discriminate.
  injection Hcreate as <- <-.
  assert (find_user (nu_username user)
            (users ++ [mkAccount (next_id users) (nu_username user) (nu_email user)
                         (get_password_hash auth (nu_password user)) (nu_is_admin user)])
          = Some (mkAccount (next_id users) (nu_username user) (nu_email user)
                    (get_password_hash auth (nu_password user)) (nu_is_admin user))) as Hfound.
  { rewrite find_user_app, Hf. unfold find_user. cbn [List.find acc_username].
    rewrite String.eqb_refl. reflexivity. }
  split; [|split].
  - unfold login. rewrite Hfound. cbn [acc_hashed_password acc_username].
    rewrite Hverify. reflexivity.
  - intros wrong Hw. unfold login. rewrite Hfound. cbn [acc_hashed_password].
    rewrite Hw. reflexivity.
  - intros name password Hname. unfold login.
    apply find_user_None in Hname. rewrite Hname. reflexivity.
Qed.

Lemma login_after_create_user_witness :
  let users1 := (create_user_ sample_auth seed_user []).2 in
  login sample_auth "bedri-b" "12345678q" users1 = Token "token-for-bedri-b" "bearer"
  /\ login sample_auth "bedri-b" "guess" users1
     = Unauthorized 401 "Incorrect username or password" [("WWW-Authenticate", "Bearer")]
  /\ login sample_auth "nobody" "12345678q" users1
     = Unauthorized 401 "Incorrect username or password" [("WWW-Authenticate", "Bearer")].
Proof.
  cbv zeta.
  destruct (login_after_create_user sample_auth seed_user []
              (mkAccount 1 "bedri-b" "bahrubedri@gmail.com" "hash:12345678q" true)
              (create_user_ sample_auth seed_user []).2) as (H1 & H2 & H3).
  - intros p. cbn. apply String.eqb_refl.
  - reflexivity.
  - split; [exact H1|]. split; [apply H2; reflexivity|].
    apply H3. vm_compute. intros [H|[]]. discriminate.
Defined.

(** ** api.py *)




